(** * pydemic: a shallow embedding of the restricted-key records, the
    likelihood harness, the HDF persistence backend and the SEIR++
    simulation family, with the properties checked against them.

    Conventions of the embedding.
    - Python exceptions are values of [Py.exn]; a call that may raise
      returns a [Py.result].  The spec's error kinds map to classes:
      InvalidInput is the [ValueError] raised by [AttrDict.__init__],
      InvalidParameters is [InvalidParametersError].
    - Floating-point numbers are idealised as real numbers ([R]): no
      rounding, no overflow.  Where the code tests for non-finite values
      (the HDF not-a-number sentinel, the minus infinity returned by the
      likelihood gate) the value is a [np.float64] with explicit
      infinities and NaN.
    - numpy arrays are zero- or one-dimensional ([np.ndarray]) with numpy's
      broadcasting written out; two-dimensional state arrays are
      [np.array2].
    - A Python [dict] with string keys is a [gmap string _], a [set] of
      strings a [gset string]. *)

From Stdlib Require Import Reals Lra.
From stdpp Require Import gmap strings list.

Open Scope string_scope.

(** ** Python values that matter to the control flow *)

Module Py.

Inductive exn : Type :=
| ValueError
| TypeError
| KeyError
| IndexError
| AttributeError
| ImportError
| NotImplementedError
| InvalidParametersError (msg : string).

Inductive result (A : Type) : Type :=
| Ok (a : A)
| Raise (e : exn).

Arguments Ok {A} a.
Arguments Raise {A} e.

#[global] Instance result_ret : MRet result := fun A a => Ok a.

#[global] Instance result_bind : MBind result := fun A B k m =>
  match m with
  | Ok a => k a
  | Raise e => Raise e
  end.

#[global] Instance result_fmap : FMap result := fun A B f m =>
  match m with
  | Ok a => Ok (f a)
  | Raise e => Raise e
  end.

Definition is_Ok {A} (m : result A) : Prop :=
  match m with Ok _ => True | Raise _ => False end.

Definition is_InvalidParameters {A} (m : result A) : Prop :=
  match m with Raise (InvalidParametersError _) => True | _ => False end.

(** [dict(items)]: later items overwrite earlier ones. *)
Definition dict {V} (items : list (string * V)) : gmap string V :=
  foldl (fun d kv => <[fst kv := snd kv]> d) ∅ items.

(** [d[key]] *)
Definition getitem {V} (d : gmap string V) (key : string) : result V :=
  match d !! key with
  | Some v => Ok v
  | None => Raise KeyError
  end.

(** A module is the set of names bound at its top level;
    [from module import name] raises ImportError for a name outside it
    (the attributes every module object inherits aside, such as
    [__class__]: the code imports none of them). *)
Definition import_from (module : gset string) (name : string) : result unit :=
  if decide (name ∈ module) then Ok tt else Raise ImportError.

End Py.

Import Py.

(** ** pydemic/__init__.py *)

Module AttrDict.

Section AttrDict.

Context {V : Type}.

(** [dict.__init__(self, *args, **kwargs)]: at most one positional
    argument (a mapping or an iterable of pairs, here the list of its
    items); keyword arguments are applied after it. *)
Definition dict_init (args : list (list (string * V)))
    (kwargs : gmap string V) : result (gmap string V) :=
  match args with
  | [] => Ok kwargs
  | [items] => Ok (kwargs ∪ dict items)
  | _ => Raise TypeError
  end.

(** [AttrDict.__init__(self, *args, **kwargs)], for a class whose
    [expected_kwargs] attribute is the given set.  A keyword named [self]
    collides with the first parameter: Python raises TypeError while it
    binds the arguments, before the body runs; every other keyword goes
    to [kwargs].  The instance is returned as its mapping, which line 35
    also installs as the instance [__dict__]. *)
Definition __init__ (expected_kwargs : gset string)
    (args : list (list (string * V))) (kwargs : gmap string V)
    : result (gmap string V) :=
  if decide ("self" ∈ dom kwargs) then Raise TypeError
  else if decide (expected_kwargs ⊆ dom kwargs) then dict_init args kwargs
  else Raise ValueError.

(** Attribute lookup on an instance whose [__dict__] is the mapping
    itself.  The data descriptors of the type ([__class__] from [object],
    [__dict__] and [__weakref__] of the class) take precedence over the
    instance dictionary; every other name is looked up in the instance
    dictionary first. *)
Inductive attribute : Type :=
| InstanceAttr (v : V)
| TypeAttr.

Definition data_descriptors : gset string :=
  {[ "__class__"; "__dict__"; "__weakref__" ]}.

Definition getattr (self : gmap string V) (name : string) : attribute :=
  if decide (name ∈ data_descriptors) then TypeAttr
  else match self !! name with
       | Some v => InstanceAttr v
       | None => TypeAttr
       end.

End AttrDict.

Arguments attribute : clear implicits.

End AttrDict.

(** The [expected_kwargs] of the classes derived from [AttrDict]. *)
Module AgeDistribution.
Definition expected_kwargs : gset string := {[ "bin_edges"; "counts" ]}.
End AgeDistribution.

Module PopulationModel.
Definition expected_kwargs : gset string :=
  {[ "country"; "cases"; "populationServed"; "hospitalBeds"; "ICUBeds";
     "suspectedCasesToday"; "importsPerDay" ]}.
End PopulationModel.

(** ** The part of numpy the sources use *)

Module np.

(** A float that may be non-finite, where the code looks at that. *)
Inductive float64 : Type :=
| Finite (x : R)
| PosInf
| NegInf
| NaN.

Definition isfinite (x : float64) : bool :=
  match x with Finite _ => true | _ => false end.

#[global] Instance Rle_decision (x y : R) : Decision (x <= y)%R := Rle_dec x y.
#[global] Instance Rlt_decision (x y : R) : Decision (x < y)%R := Rlt_dec x y.

(** Zero- and one-dimensional arrays. *)
Inductive ndarray (A : Type) : Type :=
| Scalar (x : A)
| Vec (xs : list A).

Arguments Scalar {A} x.
Arguments Vec {A} xs.

(** Elementwise binary operation with broadcasting: a scalar and a
    one-element vector stretch to the other operand's shape; vectors of
    different lengths (neither of length one) do not broadcast. *)
Definition broadcast {A B C} (f : A -> B -> C) (a : ndarray A) (b : ndarray B)
    : result (ndarray C) :=
  match a, b with
  | Scalar x, Scalar y => Ok (Scalar (f x y))
  | Scalar x, Vec ys => Ok (Vec (map (f x) ys))
  | Vec xs, Scalar y => Ok (Vec (map (fun x => f x y) xs))
  | Vec xs, Vec ys =>
      if decide (length xs = length ys) then Ok (Vec (zip_with f xs ys))
      else match xs, ys with
           | [x], _ => Ok (Vec (map (f x) ys))
           | _, [y] => Ok (Vec (map (fun x => f x y) xs))
           | _, _ => Raise ValueError
           end
  end.

Definition amap {A B} (f : A -> B) (a : ndarray A) : ndarray B :=
  match a with
  | Scalar x => Scalar (f x)
  | Vec xs => Vec (map f xs)
  end.

Definition elements {A} (a : ndarray A) : list A :=
  match a with
  | Scalar x => [x]
  | Vec xs => xs
  end.

Definition multiply : ndarray R -> ndarray R -> result (ndarray R) :=
  broadcast Rmult.

Definition subtract : ndarray R -> ndarray R -> result (ndarray R) :=
  broadcast Rminus.

Definition less : ndarray R -> ndarray R -> result (ndarray bool) :=
  broadcast (fun x y => bool_decide (x < y)%R).

(** [a *= c] for a scalar [c]: in place, the shape of [a] is kept. *)
Definition imul (a : ndarray R) (c : R) : ndarray R :=
  amap (fun x => x * c)%R a.

Definition list_sum (xs : list R) : R := foldr Rplus 0%R xs.

(** [a.sum()] and [np.sum(a)] *)
Definition sum (a : ndarray R) : R := list_sum (elements a).

(** [a.any()] *)
Definition any (a : ndarray bool) : bool :=
  existsb (fun b : bool => b) (elements a).

Definition log : ndarray R -> ndarray R := amap ln.

(** [np.power(a, n)] for a whole-number exponent. *)
Definition power (a : ndarray R) (n : nat) : ndarray R :=
  amap (fun x => x ^ n)%R a.

(** Python indexing [a[i]] on an axis of length [n]: negative indices
    count from the end; out of range is an IndexError. *)
Definition index (n : nat) (i : Z) : result nat :=
  if decide (0 <= i < Z.of_nat n)%Z then Ok (Z.to_nat i)
  else if decide (- Z.of_nat n <= i < 0)%Z then Ok (Z.to_nat (Z.of_nat n + i))
  else Raise IndexError.

Definition item {A} (xs : list A) (i : Z) : result A :=
  k ← index (length xs) i;
  match xs !! k with
  | Some x => Ok x
  | None => Raise IndexError
  end.

(** Length of the slice [a[:stop]] on an axis of length [n]. *)
Definition slice_stop (n : nat) (stop : Z) : nat :=
  let s := if decide (stop < 0)%Z then (stop + Z.of_nat n)%Z else stop in
  Z.to_nat (Z.min (Z.max s 0) (Z.of_nat n)).

(** Length of the slice [a[start::-1]] on an axis of length [n]; its
    elements are the first that many, in reverse order. *)
Definition slice_rev_len (n : nat) (start : Z) : nat :=
  let s := if decide (start < 0)%Z then (start + Z.of_nat n)%Z else start in
  Z.to_nat (Z.min (Z.max (s + 1) 0) (Z.of_nat n)).

(** Two-dimensional arrays, as a shape and an indexing function: the
    first axis is the demographic (age) axis, the last one is time. *)
Record array2 : Type := {
  nrows : nat;
  ncols : nat;
  get : nat -> nat -> R
}.

(** [a[..., i]] *)
Definition last_axis (a : array2) (i : Z) : result (ndarray R) :=
  k ← index (ncols a) i;
  Ok (Vec (map (fun r => get a r k) (seq 0 (nrows a)))).

(** [a[..., start::-1]]: one row per age group. *)
Definition last_axis_rev (a : array2) (start : Z) : list (list R) :=
  map (fun r => map (get a r) (rev (seq 0 (slice_rev_len (ncols a) start))))
      (seq 0 (nrows a)).

(** [np.dot(m, v)] of a two-dimensional array and a vector. *)
Definition dot (m : list (list R)) (width : nat) (v : list R)
    : result (ndarray R) :=
  if decide (width = length v)
  then Ok (Vec (map (fun row => list_sum (zip_with Rmult row v)) m))
  else Raise ValueError.

(** [a[..., i] = v]: [v] must broadcast to the first axis. *)
Definition set_last_axis (a : array2) (i : Z) (v : ndarray R)
    : result array2 :=
  k ← index (ncols a) i;
  let put (f : nat -> R) :=
    {| nrows := nrows a; ncols := ncols a;
       get := fun r c => if decide (c = k) then f r else get a r c |} in
  match v with
  | Scalar x => Ok (put (fun _ => x))
  | Vec [x] => Ok (put (fun _ => x))
  | Vec xs =>
      if decide (length xs = nrows a)
      then Ok (put (fun r => default 0%R (xs !! r)))
      else Raise ValueError
  end.

End np.

(** ** pydemic/sampling.py *)

Module SampleParameter.

Record instance : Type := {
  name : string;
  bounds : R * R;
  guess : option R;
  uncertainty : option R
}.

(** The data attributes of an instance are those [__init__] sets; any
    other data attribute, such as [sigma], is an AttributeError. *)
Inductive attr : Type :=
| AStr (s : string)
| ABounds (b : R * R)
| AFloat (x : option R).

Definition getattr (par : instance) (a : string) : result attr :=
  if decide (a = "name") then Ok (AStr (name par))
  else if decide (a = "bounds") then Ok (ABounds (bounds par))
  else if decide (a = "guess") then Ok (AFloat (guess par))
  else if decide (a = "uncertainty") then Ok (AFloat (uncertainty par))
  else Raise AttributeError.

(** [SampleParameter(name, bounds, *rest)]: [__init__] takes exactly
    [name, bounds, guess, uncertainty]. *)
Definition __init__ (name : string) (bounds : R * R) (rest : list (option R))
    : result instance :=
  match rest with
  | [guess; uncertainty] =>
      Ok {| name := name; bounds := bounds; guess := guess;
            uncertainty := uncertainty |}
  | _ => Raise TypeError
  end.

End SampleParameter.

Module Sampling.

(** The names bound at the top level of pydemic/sampling.py (with the
    attributes every module has). *)
Definition module : gset string :=
  {[ "__name__"; "__doc__"; "__package__"; "__loader__"; "__spec__";
     "__file__"; "__cached__"; "__builtins__";
     "__copyright__"; "__license__"; "np";
     "SampleParameter"; "l2_log_norm"; "LikelihoodEstimatorBase" ]}.

Definition l2_log_norm (a b : np.ndarray R) : result R :=
  d ← np.subtract (np.log a) (np.log b);
  Ok (-1 / 2 * np.sum (np.power d 2))%R.

End Sampling.

Module LikelihoodEstimatorBase.

Section Estimator.

Context {Data : Type}.

(** An estimator: the attributes [__init__] sets, and the
    [get_log_likelihood] method of its class. *)
Record instance : Type := {
  fit_parameters : list SampleParameter.instance;
  fit_names : list string;
  fixed_values : gmap string R;
  data : Data;
  norm : np.ndarray R -> np.ndarray R -> result R;
  get_log_likelihood : gmap string R -> result np.float64
}.

Definition __init__ (get_log_likelihood : gmap string R -> result np.float64)
    (fit_parameters : list SampleParameter.instance) (fixed_values : gmap string R)
    (data : Data) (norm : option (np.ndarray R -> np.ndarray R -> result R))
    : instance :=
  {| fit_parameters := fit_parameters;
     fit_names := map SampleParameter.name fit_parameters;
     fixed_values := fixed_values;
     data := data;
     norm := default Sampling.l2_log_norm norm;
     get_log_likelihood := get_log_likelihood |}.

(** The method of the base class itself. *)
Definition base_get_log_likelihood (parameters : gmap string R)
    : result np.float64 :=
  Raise NotImplementedError.

Fixpoint within_bounds (pars : list SampleParameter.instance) (theta : list R)
    : bool :=
  match pars, theta with
  | par :: pars', value :: theta' =>
      let bounds := SampleParameter.bounds par in
      if negb (bool_decide (fst bounds <= value)%R
               && bool_decide (value <= snd bounds)%R)
      then false
      else within_bounds pars' theta'
  | _, _ => true
  end.

Definition check_within_bounds (self : instance) (theta : list R) : bool :=
  within_bounds (fit_parameters self) theta.

Definition __call__ (self : instance) (theta : list R) : result np.float64 :=
  if negb (check_within_bounds self theta) then Ok np.NegInf
  else
    let parameters := dict (zip (fit_names self) theta) in
    get_log_likelihood self parameters.

End Estimator.

Arguments instance : clear implicits.

End LikelihoodEstimatorBase.

(** ** pydemic/hdf.py *)

Module HDFBackend.

(** What a dataset of the calibration groups holds. *)
Inductive dataset : Type :=
| Scalar64 (x : R)
| Strings (xs : list string)
| Bounds (xs : list (R * R))
| Floats (xs : list np.float64).

(** The file: its top-level groups with their datasets, and its
    attributes.  The sampler's own groups are not touched by this code. *)
Record file : Type := {
  groups : gmap string (gmap string dataset);
  attrs : gmap string string
}.

Definition empty_file : file := {| groups := ∅; attrs := ∅ |}.

(** Writes go to the open file one statement at a time, so a statement
    that raises leaves the earlier writes in the file that the [with]
    block closes: a writer is a state transformer with an outcome. *)
Definition writer (A : Type) : Type := file -> file * result A.

Definition wret {A} (a : A) : writer A := fun f => (f, Ok a).

Definition wbind {A B} (m : writer A) (k : A -> writer B) : writer B :=
  fun f =>
    match m f with
    | (f', Ok a) => k a f'
    | (f', Raise e) => (f', Raise e)
    end.

Definition lift {A} (m : result A) : writer A := fun f => (f, m).

Notation "x <~ m ; k" := (wbind m (fun x => k))
  (at level 20, m at level 100, k at level 200, only parsing).

(** [f.create_group(name)] *)
Definition create_group (name : string) : writer unit := fun f =>
  match groups f !! name with
  | Some _ => (f, Raise ValueError)
  | None => ({| groups := <[name := ∅]> (groups f); attrs := attrs f |}, Ok tt)
  end.

(** [f[group][key] = value] and [f['group/key'] = value], for a [key]
    that is one link name: not empty and without a slash.  h5py reads a
    slash in a name as a path and creates the groups in between; the
    names the constructor writes itself are link names, and the keys of
    [fixed_values] are taken to be: other keys are outside this model. *)
Definition create_dataset (group key : string) (value : dataset)
    : writer unit := fun f =>
  match groups f !! group with
  | None => (f, Raise KeyError)
  | Some g =>
      match g !! key with
      | Some _ => (f, Raise ValueError)
      | None =>
          ({| groups := <[group := <[key := value]> g]> (groups f);
              attrs := attrs f |}, Ok tt)
      end
  end.

Definition set_attr (key value : string) : writer unit := fun f =>
  ({| groups := groups f; attrs := <[key := value]> (attrs f) |}, Ok tt).

Fixpoint write_items (group : string) (items : list (string * R))
    : writer unit :=
  match items with
  | [] => wret tt
  | (key, value) :: items' =>
      _ <~ create_dataset group key (Scalar64 value);
      write_items group items'
  end.

Definition nanify (x : option R) : np.float64 :=
  match x with
  | Some v => np.Finite v
  | None => np.NaN
  end.

Definition denanify (x : np.float64) : option R :=
  match x with
  | np.Finite v => Some v
  | _ => None
  end.

(** [[nanify(par.<attr>) for par in fit_parameters]] *)
Fixpoint nanified (a : string) (fit_parameters : list SampleParameter.instance)
    : result (list np.float64) :=
  match fit_parameters with
  | [] => Ok []
  | par :: pars =>
      v ← SampleParameter.getattr par a;
      x ← match v with
          | SampleParameter.AFloat x => Ok (nanify x)
          | _ => Raise TypeError
          end;
      xs ← nanified a pars;
      Ok (x :: xs)
  end.

(** [HDFBackend.__init__] on the file [filename] names, opened in append
    mode, without a [data] argument.  After the file is written, line 108
    imports [CaseData] from pydemic.data whatever the arguments are; that
    module of the package is a parameter here, the set of names it binds.
    With no [data], neither branch of lines 109-125 writes anything. *)
Definition __init__ (data_module : gset string)
    (fit_parameters : option (list SampleParameter.instance))
    (fixed_values : option (gmap string R)) (simulator : option string)
    : writer unit :=
  _ <~ match fixed_values with
       | Some fixed_values =>
           _ <~ create_group "fixed_values";
           write_items "fixed_values" (map_to_list fixed_values)
       | None => wret tt
       end;
  _ <~ match fit_parameters with
       | Some fit_parameters =>
           _ <~ create_group "fit_parameters";
           _ <~ create_dataset "fit_parameters" "names"
                  (Strings (map SampleParameter.name fit_parameters));
           _ <~ create_dataset "fit_parameters" "bounds"
                  (Bounds (map SampleParameter.bounds fit_parameters));
           guess <~ lift (nanified "guess" fit_parameters);
           _ <~ create_dataset "fit_parameters" "guess" (Floats guess);
           uncertainty <~ lift (nanified "uncertainty" fit_parameters);
           _ <~ create_dataset "fit_parameters" "uncertainty"
                  (Floats uncertainty);
           sigma <~ lift (nanified "sigma" fit_parameters);
           create_dataset "fit_parameters" "sigma" (Floats sigma)
       | None => wret tt
       end;
  _ <~ match simulator with
       | Some name => set_attr "simulator" name
       | None => wret tt
       end;
  lift (import_from data_module "CaseData").

(** The [fixed_values] property. *)
Definition fixed_values (f : file) : result (gmap string dataset) :=
  getitem (groups f) "fixed_values".

(** [f['fit_parameters'][key][i]] for a dataset of floats *)
Definition float_at (f : file) (key : string) (i : nat)
    : result np.float64 :=
  g ← getitem (groups f) "fit_parameters";
  d ← getitem g key;
  match d with
  | Floats xs => np.item xs (Z.of_nat i)
  | _ => Raise TypeError
  end.

Definition bounds_at (f : file) (i : nat) : result (R * R) :=
  g ← getitem (groups f) "fit_parameters";
  d ← getitem g "bounds";
  match d with
  | Bounds xs => np.item xs (Z.of_nat i)
  | _ => Raise TypeError
  end.

(** The body of the loop over [enumerate(names)]. *)
Definition read_parameter (f : file) (i : nat) (name : string)
    : result SampleParameter.instance :=
  bounds ← bounds_at f i;
  rest ← mapM (fun key => denanify <$> float_at f key i)
            ["guess"; "uncertainty"; "sigma"];
  SampleParameter.__init__ name bounds rest.

Fixpoint read_parameters (f : file) (i : nat) (names : list string)
    : result (list SampleParameter.instance) :=
  match names with
  | [] => Ok []
  | name :: names' =>
      par ← read_parameter f i name;
      pars ← read_parameters f (S i) names';
      Ok (par :: pars)
  end.

(** The [fit_parameters] property. *)
Definition fit_parameters (f : file) : result (list SampleParameter.instance) :=
  g ← getitem (groups f) "fit_parameters";
  d ← getitem g "names";
  match d with
  | Strings names => read_parameters f 0 names
  | _ => Raise TypeError
  end.

End HDFBackend.

(** ** pydemic/models/seirpp.py *)

Module SimulationResult.

(** [y] maps a compartment name to its array over (age, time). *)
Record instance : Type := {
  t : list R;
  y : gmap string np.array2
}.

End SimulationResult.

Module NonMarkovianSEIRSimulationBase.

(** The evaluation times: a [pandas.DatetimeIndex], each date given by its
    offset in days from 2020-01-01 (what line 218 computes), or an array
    of days. *)
Inductive time_index : Type :=
| DatetimeIndex (days : list R)
| DayArray (days : list R).

(** Lines 217-220: the evaluation times in days since 2020-01-01. *)
Definition days_since_epoch (t : time_index) : list R :=
  match t with
  | DatetimeIndex days => days
  | DayArray days => days
  end.

(** Keyword values: a number, an array, or any other object. *)
Inductive kwarg : Type :=
| KFloat (x : R)
| KArray (a : np.ndarray R)
| KObject.

Section Base.

(** The delay distributions come from pydemic.distributions, which is
    not among the sources at hand: their type is a parameter. *)
Context {Dist : Type}.

Record instance : Type := {
  mitigation : R -> R;
  serial_dist : Dist;
  seasonal_forcing_amp : R;
  peak_day : R;
  r0 : R;
  (** set by [__call__] and by [get_y0]; absent until then *)
  serial_pdf : option (list R);
  total_population : option R
}.

Definition seasonal_forcing (self : instance) (t : R) : R :=
  let phase := (2 * PI * (t - peak_day self) / 365)%R in
  (1 + seasonal_forcing_amp self * cos phase)%R.

Definition __init__ (mitigation : option (R -> R)) (r0 : R)
    (serial_dist : Dist) (seasonal_forcing_amp peak_day : R) : instance :=
  {| mitigation := default (fun _ => 1%R) mitigation;
     serial_dist := serial_dist;
     seasonal_forcing_amp := seasonal_forcing_amp;
     peak_day := peak_day;
     r0 := r0;
     serial_pdf := None;
     total_population := None |}.

(** Reading an instance attribute that may not have been set yet. *)
Definition attribute {A} (x : option A) : result A :=
  match x with
  | Some a => Ok a
  | None => Raise AttributeError
  end.

(** [step]: the state is updated in place by the source; here the
    updated state is returned. *)
Definition step (self : instance) (state : SimulationResult.instance)
    (count : Z) (dt : R) : result SimulationResult.instance :=
  t_count ← np.item (SimulationResult.t state) count;
  let Rt := (r0 self * mitigation self t_count
             * seasonal_forcing self t_count)%R in
  infected ← getitem (SimulationResult.y state) "infected";
  pdf ← attribute (serial_pdf self);
  j_m ← np.dot (np.last_axis_rev infected (count - 1))
            (np.slice_rev_len (np.ncols infected) (count - 1))
            (take (np.slice_stop (length pdf) count) pdf);
  let j_i := np.sum j_m in
  susceptible ← getitem (SimulationResult.y state) "susceptible";
  S_i ← np.last_axis susceptible (count - 1);
  total ← attribute (total_population self);
  let new_infected_i :=
    np.amap (fun s => dt * Rt * s * j_i / total)%R S_i in
  infected' ← np.set_last_axis infected count new_infected_i;
  let y1 := <["infected" := infected']> (SimulationResult.y state) in
  susceptible1 ← getitem y1 "susceptible";
  previous ← np.last_axis susceptible1 (count - 1);
  remaining ← np.subtract previous new_infected_i;
  susceptible' ← np.set_last_axis susceptible1 count remaining;
  Ok {| SimulationResult.t := SimulationResult.t state;
        SimulationResult.y := <["susceptible" := susceptible']> y1 |}.

(** [get_model_data], lines 217-230.  The module pydemic.sampling is a
    parameter, instantiated below with the module as it is; so is the
    remainder of the method (lines 232-298), which builds the mitigation
    schedule and the delay distributions from modules that are not among
    the sources at hand, runs the simulation and tabulates it. *)
Section GetModelData.

Variable sampling : gset string.
Context {Table : Type}.
Variable remainder :
  kwarg -> R -> list R -> gmap string kwarg -> result Table.

Definition get_model_data (t : time_index) (kwargs : gmap string kwarg)
    : result Table :=
  let t_eval := days_since_epoch t in
  t0 ← getitem kwargs "start_day";
  let kwargs := delete "start_day" kwargs in
  last ← np.item t_eval (-1);
  let tf := (last + 2)%R in
  _ ← import_from sampling "InvalidParametersError";
  floor ← match t0 with
          | KFloat x => Ok (np.Scalar (x + 1)%R)
          | KArray a => Ok (np.amap (fun x => x + 1)%R a)
          | KObject => Raise TypeError
          end;
  early ← np.less (np.Vec t_eval) floor;
  if np.any early
  then Raise (InvalidParametersError
     "Must start simulation at least one day before result evaluation.")
  else remainder t0 tf t_eval kwargs.

End GetModelData.

End Base.

Arguments instance : clear implicits.

End NonMarkovianSEIRSimulationBase.

Module SEIRPlusPlusSimulation.

Section Init.

Context {Dist : Type}.

(** The keyword arguments of [__init__]. *)
Record args : Type := {
  mitigation : option (R -> R);
  age_distribution : np.ndarray R;
  ifr : option R;
  r0 : R;
  serial_dist : Dist;
  seasonal_forcing_amp : R;
  peak_day : R;
  incubation_dist : Dist;
  p_symptomatic : np.ndarray R;
  p_positive : np.ndarray R;
  hospitalized_dist : Dist;
  p_hospitalized : np.ndarray R;
  discharged_dist : Dist;
  critical_dist : Dist;
  p_critical : np.ndarray R;
  dead_dist : Dist;
  p_dead : np.ndarray R;
  recovered_dist : Dist;
  all_dead_dist : Dist;
  all_dead_multiplier : np.ndarray R
}.

(** The defaults of the signature, for a constructor [GammaDistribution]
    of the absent module. *)
Definition defaults (GammaDistribution : R -> R -> Dist)
    (age_distribution : np.ndarray R) : args :=
  {| mitigation := None;
     age_distribution := age_distribution;
     ifr := None;
     r0 := 3.2;
     serial_dist := GammaDistribution 4 3.25;
     seasonal_forcing_amp := 0.2;
     peak_day := 15;
     incubation_dist := GammaDistribution 5.5 2;
     p_symptomatic := np.Scalar 1;
     p_positive := np.Scalar 1;
     hospitalized_dist := GammaDistribution 6.5 4;
     p_hospitalized := np.Scalar 1;
     discharged_dist := GammaDistribution 6 4;
     critical_dist := GammaDistribution 2 2;
     p_critical := np.Scalar 1;
     dead_dist := GammaDistribution 7.5 7.5;
     p_dead := np.Scalar 1;
     recovered_dist := GammaDistribution 7.5 7.5;
     all_dead_dist := GammaDistribution 2.5 2.5;
     all_dead_multiplier := np.Scalar 1 |}%R.

Record instance : Type := {
  base : NonMarkovianSEIRSimulationBase.instance Dist;
  readouts : list (string * (string * np.ndarray R * Dist))
}.

(** Lines 394-397 *)
Definition p_dead_net
    (p_symptomatic p_hospitalized p_critical p_dead all_dead_multiplier
       : np.ndarray R) : result (np.ndarray R) :=
  p ← np.multiply p_symptomatic p_hospitalized;
  p ← np.multiply p p_critical;
  p ← np.multiply p p_dead;
  np.multiply p all_dead_multiplier.

(** Line 398 *)
Definition weighted_sum (p_dead_net age_distribution : np.ndarray R)
    : result R :=
  w ← np.multiply p_dead_net age_distribution;
  Ok (np.sum w).

(** Lines 393-399: the value of the local [p_symptomatic] afterwards. *)
Definition rescaled_p_symptomatic (a : args) : result (np.ndarray R) :=
  match ifr a with
  | Some ifr =>
      p_dead_net ← p_dead_net (p_symptomatic a) (p_hospitalized a)
                      (p_critical a) (p_dead a) (all_dead_multiplier a);
      weighted_sum ← weighted_sum p_dead_net (age_distribution a);
      Ok (np.imul (p_symptomatic a) (ifr / weighted_sum)%R)
  | None => Ok (p_symptomatic a)
  end.

(** Lines 404-406, without the leading [age_distribution]. *)
Fixpoint progression (last : np.ndarray R) (probs : list (np.ndarray R))
    : result (list (np.ndarray R)) :=
  match probs with
  | [] => Ok []
  | prob :: probs' =>
      next ← np.multiply last prob;
      more ← progression next probs';
      Ok (next :: more)
  end.

Definition p_progression (age_distribution : np.ndarray R)
    (probs : list (np.ndarray R)) : result (list (np.ndarray R)) :=
  more ← progression age_distribution probs;
  Ok (age_distribution :: more).

Definition names : list string :=
  ["p_symptomatic"; "p_hospitalized"; "p_critical"; "p_dead"].

(** Lines 409-411: the name the loop raises with, if any. *)
Fixpoint too_large (p_progression : list (np.ndarray R))
    (names : list string) : option string :=
  match p_progression, names with
  | p_i :: ((p_next :: _) as later), name :: names' =>
      if decide (np.sum p_i < np.sum p_next)%R then Some name
      else too_large later names'
  | _, _ => None
  end.

Definition one_minus (p : np.ndarray R) : np.ndarray R :=
  np.amap (fun x => 1 - x)%R p.

(** [SEIRPlusPlusSimulation.__init__]; the module pydemic.sampling that
    line 402 imports from is a parameter, instantiated below with the
    module as it is. *)
Definition __init__ (sampling : gset string) (a : args) : result instance :=
  let base :=
    NonMarkovianSEIRSimulationBase.__init__ (mitigation a) (r0 a)
      (serial_dist a) (seasonal_forcing_amp a) (peak_day a) in
  p_symptomatic ← rescaled_p_symptomatic a;
  _ ← import_from sampling "InvalidParametersError";
  p_progression ← p_progression (age_distribution a)
    [p_symptomatic; p_hospitalized a; p_critical a; p_dead a];
  match too_large p_progression names with
  | Some name => Raise (InvalidParametersError (name ++ " is too large"))
  | None =>
      positive ← np.multiply (p_positive a) p_symptomatic;
      Ok {| base := base;
            readouts :=
              [("symptomatic", ("infected", p_symptomatic, incubation_dist a));
               ("positive", ("infected", positive, incubation_dist a));
               ("admitted_to_hospital",
                ("symptomatic", p_hospitalized a, hospitalized_dist a));
               ("icu", ("admitted_to_hospital", p_critical a, critical_dist a));
               ("dead", ("icu", p_dead a, dead_dist a));
               ("general_ward",
                ("icu", one_minus (p_dead a), recovered_dist a));
               ("hospital_recovered",
                ("admitted_to_hospital", one_minus (p_critical a),
                 discharged_dist a));
               ("general_ward_recovered",
                ("general_ward", np.Scalar 1%R, discharged_dist a));
               ("all_dead",
                ("dead", all_dead_multiplier a, all_dead_dist a))] |}
  end.

End Init.

Arguments args : clear implicits.
Arguments instance : clear implicits.

End SEIRPlusPlusSimulation.

(** ** Further code of pydemic/sampling.py: the grid sampler *)

Module Sampler.

(** [np.linspace(start, stop, num)] with both end points: a negative
    [num] is a ValueError, one point is [start]. *)
Definition linspace (start stop : R) (num : Z) : result (list R) :=
  if decide (num < 0)%Z then Raise ValueError
  else
    let n := Z.to_nat num in
    Ok (map (fun i => start + INR i * ((stop - start) / INR (n - 1)))%R
          (seq 0 n)).

(** [itertools.product] of the lists: the last list varies fastest. *)
Fixpoint product {A} (lists : list (list A)) : list (list A) :=
  match lists with
  | [] => [[]]
  | xs :: lists' =>
      flat_map (fun x => map (cons x) (product lists')) xs
  end.

(** Assignment to a key of a [dict], which keeps the order of first
    insertion: an existing key keeps its place. *)
Fixpoint dict_set {V} (d : list (string * V)) (key : string) (value : V)
    : list (string * V) :=
  match d with
  | [] => [(key, value)]
  | (k, v) :: d' =>
      if decide (k = key) then (k, value) :: d'
      else (k, v) :: dict_set d' key value
  end.

(** The [num_points] argument: one count for all parameters, or a [dict]
    of counts by parameter name. *)
Inductive num_points : Type :=
| Count (n : Z)
| Counts (by_name : gmap string Z).

Section SampleUniform.

Context {Data : Type}.

(** Lines 76-77 *)
Definition counts_by_name (self : LikelihoodEstimatorBase.instance Data)
    (num : num_points) : gmap string Z :=
  match num with
  | Counts by_name => by_name
  | Count n =>
      dict (map (fun par => (SampleParameter.name par, n))
              (LikelihoodEstimatorBase.fit_parameters self))
  end.

(** Lines 79-82: the comprehension, one fit parameter after the other. *)
Fixpoint samples (num : gmap string Z) (pars : list SampleParameter.instance)
    (acc : list (string * list R)) : result (list (string * list R)) :=
  match pars with
  | [] => Ok acc
  | par :: pars' =>
      n ← getitem num (SampleParameter.name par);
      grid ← linspace (fst (SampleParameter.bounds par))
                (snd (SampleParameter.bounds par)) n;
      samples num pars' (dict_set acc (SampleParameter.name par) grid)
  end.

(** [sample_uniform]; with a pool the same calls are made through
    [pool.map].  Returns the value sets and their likelihoods. *)
Definition sample_uniform (self : LikelihoodEstimatorBase.instance Data)
    (num : num_points) : result (list (list R) * list np.float64) :=
  let num := counts_by_name self num in
  samples ← samples num (LikelihoodEstimatorBase.fit_parameters self) [];
  let values := product (map snd samples) in
  likelihoods ← mapM (LikelihoodEstimatorBase.__call__ self) values;
  Ok (values, likelihoods).

End SampleUniform.

End Sampler.

(** ** Further code of pydemic/models/seirpp.py: the base driver *)

Module Driver.

Section Driver.

Context {Dist : Type}.

(** [get_y0]: returns the instance with [total_population] set, the
    [population] attribute it also sets, and the initial condition. *)
Definition get_y0 (self : NonMarkovianSEIRSimulationBase.instance Dist)
    (total_population initial_cases : R) (age_distribution : list R)
    : NonMarkovianSEIRSimulationBase.instance Dist * list R
      * gmap string (list R) :=
  let self' :=
    {| NonMarkovianSEIRSimulationBase.mitigation :=
         NonMarkovianSEIRSimulationBase.mitigation self;
       NonMarkovianSEIRSimulationBase.serial_dist :=
         NonMarkovianSEIRSimulationBase.serial_dist self;
       NonMarkovianSEIRSimulationBase.seasonal_forcing_amp :=
         NonMarkovianSEIRSimulationBase.seasonal_forcing_amp self;
       NonMarkovianSEIRSimulationBase.peak_day :=
         NonMarkovianSEIRSimulationBase.peak_day self;
       NonMarkovianSEIRSimulationBase.r0 :=
         NonMarkovianSEIRSimulationBase.r0 self;
       NonMarkovianSEIRSimulationBase.serial_pdf :=
         NonMarkovianSEIRSimulationBase.serial_pdf self;
       NonMarkovianSEIRSimulationBase.total_population :=
         Some total_population |} in
  let population := map (fun a => total_population * a)%R age_distribution in
  let infected := map (fun a => initial_cases * a)%R age_distribution in
  let susceptible := zip_with Rminus population infected in
  (self', population,
   <["infected" := infected]> (<["susceptible" := susceptible]> ∅)).

(** Lines 157-160: every compartment of [y0] over all time points, the
    initial value in the first one. *)
Definition over_time (n_steps : nat) (y0 : list R) : np.array2 :=
  {| np.nrows := length y0; np.ncols := n_steps;
     np.get := fun r c => if decide (c = 0) then default 0%R (y0 !! r)
                          else 0%R |}.

Definition y0_all_t (n_steps : nat) (y0 : gmap string (list R))
    : result (gmap string np.array2) :=
  if decide (n_steps = 0 /\ y0 <> ∅) then Raise IndexError
  else Ok (over_time n_steps <$> y0).

(** Lines 164-165 *)
Fixpoint steps (self : NonMarkovianSEIRSimulationBase.instance Dist)
    (state : SimulationResult.instance) (counts : list Z) (dt : R)
    : result SimulationResult.instance :=
  match counts with
  | [] => Ok state
  | count :: counts' =>
      state' ← NonMarkovianSEIRSimulationBase.step self state count dt;
      steps self state' counts' dt
  end.

(** [val.T] *)
Definition transpose (a : np.array2) : np.array2 :=
  {| np.nrows := np.ncols a; np.ncols := np.nrows a;
     np.get := fun r c => np.get a c r |}.

(** [__call__] from line 153 on.  The time grid [times] (line 152,
    [np.arange], whose length depends on floating-point rounding) and the
    discretised kernel [pdf] (line 154, computed by the distribution class
    of a module not among the sources) are taken as given.  Returns the
    instance with [serial_pdf] set, and the result with time along the
    first axis. *)
Definition __call__ (self : NonMarkovianSEIRSimulationBase.instance Dist)
    (times pdf : list R) (y0 : gmap string (list R)) (dt : R)
    : result (NonMarkovianSEIRSimulationBase.instance Dist
              * SimulationResult.instance) :=
  let n_steps := length times in
  let self' :=
    {| NonMarkovianSEIRSimulationBase.mitigation :=
         NonMarkovianSEIRSimulationBase.mitigation self;
       NonMarkovianSEIRSimulationBase.serial_dist :=
         NonMarkovianSEIRSimulationBase.serial_dist self;
       NonMarkovianSEIRSimulationBase.seasonal_forcing_amp :=
         NonMarkovianSEIRSimulationBase.seasonal_forcing_amp self;
       NonMarkovianSEIRSimulationBase.peak_day :=
         NonMarkovianSEIRSimulationBase.peak_day self;
       NonMarkovianSEIRSimulationBase.r0 :=
         NonMarkovianSEIRSimulationBase.r0 self;
       NonMarkovianSEIRSimulationBase.serial_pdf :=
         Some (map (fun p => p / dt)%R pdf);
       NonMarkovianSEIRSimulationBase.total_population :=
         NonMarkovianSEIRSimulationBase.total_population self |} in
  y ← y0_all_t n_steps y0;
  let influxes := {| SimulationResult.t := times; SimulationResult.y := y |} in
  influxes ← steps self' influxes
    (map Z.of_nat (seq 1 (n_steps - 1))) dt;
  Ok (self',
      {| SimulationResult.t := SimulationResult.t influxes;
         SimulationResult.y := transpose <$> SimulationResult.y influxes |}).

End Driver.

End Driver.

(** ** pydemic/models/seirpp.py: the legacy variant *)

Module OldSEIRPlusPlusSimulation.

Section Init.

Context {Dist : Type}.

(** The keyword arguments of [__init__] (further keywords are accepted
    and ignored). *)
Record args : Type := {
  mitigation : option (R -> R);
  age_distribution : np.ndarray R;
  ifr : option R;
  r0 : R;
  serial_dist : Dist;
  seasonal_forcing_amp : R;
  peak_day : R;
  incubation_dist : Dist;
  p_observed : np.ndarray R;
  icu_dist : Dist;
  p_icu : np.ndarray R;
  dead_dist : Dist;
  p_dead : np.ndarray R;
  recovered_dist : Dist
}.

Record instance : Type := {
  base : NonMarkovianSEIRSimulationBase.instance Dist;
  readouts : list (string * (string * np.ndarray R * Dist))
}.

(** Line 534 *)
Definition p_dead_all (p_symptomatic : np.ndarray R) (a : args)
    : result (np.ndarray R) :=
  p ← np.multiply p_symptomatic (p_observed a);
  p ← np.multiply p (p_icu a);
  np.multiply p (p_dead a).

(** Line 535 *)
Definition synthetic_ifr (a : args) : result R :=
  p_dead_all ← p_dead_all (np.Scalar 1%R) a;
  w ← np.multiply p_dead_all (age_distribution a);
  Ok (np.sum w).

Definition __init__ (a : args) : result instance :=
  let base :=
    NonMarkovianSEIRSimulationBase.__init__ (mitigation a) (r0 a)
      (serial_dist a) (seasonal_forcing_amp a) (peak_day a) in
  let p_symptomatic := np.Scalar 1%R in
  synthetic_ifr ← synthetic_ifr a;
  ifr ← match ifr a with
        | Some ifr => Ok ifr
        | None => Raise TypeError
        end;
  let p_symptomatic := np.imul p_symptomatic (ifr / synthetic_ifr)%R in
  observed ← np.multiply (p_observed a) p_symptomatic;
  Ok {| base := base;
        readouts :=
          [("observed", ("infected", observed, incubation_dist a));
           ("icu", ("observed", p_icu a, icu_dist a));
           ("dead", ("icu", p_dead a, dead_dist a));
           ("recovered",
            ("icu", SEIRPlusPlusSimulation.one_minus (p_dead a),
             recovered_dist a))] |}.

End Init.

Arguments args : clear implicits.
Arguments instance : clear implicits.

End OldSEIRPlusPlusSimulation.
(** ** Vocabulary of the specification *)

Module Spec.

(** A positive array. *)
Definition positive (a : np.ndarray R) : Prop :=
  Forall (fun x => 0 < x)%R (np.elements a).

(** [value] lies strictly outside the inclusive bounds of [par]. *)
Definition strictly_outside (par : SampleParameter.instance) (value : R) : Prop :=
  (value < fst (SampleParameter.bounds par)
   \/ snd (SampleParameter.bounds par) < value)%R.

(** Some component of [theta] lies strictly outside the bounds of its
    parameter. *)
Definition some_outside (pars : list SampleParameter.instance) (theta : list R)
    : Prop :=
  exists i par value,
    pars !! i = Some par /\ theta !! i = Some value /\
    strictly_outside par value.

(** Stage [name] is the first one at which the sum over the age groups
    of the cumulative product exceeds that of the stage before it. *)
Definition first_increase (p_progression : list (np.ndarray R))
    (names : list string) (name : string) : Prop :=
  exists i p q,
    names !! i = Some name /\
    p_progression !! i = Some p /\ p_progression !! S i = Some q /\
    (np.sum p < np.sum q)%R /\
    forall j p' q', j < i ->
      p_progression !! j = Some p' -> p_progression !! S j = Some q' ->
      (np.sum q' <= np.sum p')%R.

End Spec.
(** ** Vocabulary of the further properties *)

Module Laws.

(** A state on which [step] can run at [count]: both compartments are
    there, over the same age groups and with [n_steps] time points, as
    many as the time grid has. *)
Definition steppable (state : SimulationResult.instance)
    (infected susceptible : np.array2) (n_steps : nat) : Prop :=
  SimulationResult.y state !! "infected" = Some infected /\
  SimulationResult.y state !! "susceptible" = Some susceptible /\
  np.nrows infected = np.nrows susceptible /\
  np.ncols infected = n_steps /\ np.ncols susceptible = n_steps /\
  length (SimulationResult.t state) = n_steps.

(** The aggregate force of infection that [step] computes at [count]:
    the infection history up to [count - 1], latest first, against the
    kernel, summed over the age groups. *)
Definition force_of_infection (infected : np.array2) (kernel : list R)
    (count : nat) : R :=
  np.list_sum
    (map (fun age =>
            np.list_sum
              (zip_with Rmult (map (np.get infected age) (rev (seq 0 count)))
                 (take count kernel)))
       (seq 0 (np.nrows infected))).

(** Sum of the entries [first .. first + n - 1] of a column [f]. *)
Definition column_sum (f : nat -> R) (first n : nat) : R :=
  np.list_sum (map f (seq first n)).

(** Deaths per infection of the legacy chain of readouts: infected to
    observed to icu to dead, weighted by the age distribution. *)
Definition fatalities_per_infection
    (observed icu dead age_distribution : np.ndarray R) : result R :=
  p ← np.multiply observed icu;
  p ← np.multiply p dead;
  w ← np.multiply p age_distribution;
  Ok (np.sum w).

End Laws.
(** ** Concrete inputs used by the examples below *)

Module Examples.

(** Keyword arguments for [AgeDistribution]: the spec's example, the same
    with an undeclared field, and a proper subset of the declared ones. *)
Definition age_kwargs : gmap string (list Z) :=
  {[ "bin_edges" := [0; 10; 20]%Z; "counts" := [100; 90]%Z ]}.

Definition age_kwargs_extra : gmap string (list Z) :=
  <["weights" := [1]%Z]> age_kwargs.

Definition age_kwargs_partial : gmap string (list Z) :=
  {[ "bin_edges" := [0; 10; 20]%Z ]}.

(** One fit parameter bounded by [0, 1], as in the spec's examples, and
    an estimator whose log-likelihood is its value. *)
Definition beta : SampleParameter.instance :=
  {| SampleParameter.name := "beta";
     SampleParameter.bounds := (0, 1)%R;
     SampleParameter.guess := Some 0.5%R;
     SampleParameter.uncertainty := Some 0.1%R |}.

(** The same parameter without an initial guess. *)
Definition beta_no_guess : SampleParameter.instance :=
  {| SampleParameter.name := "beta";
     SampleParameter.bounds := (0, 1)%R;
     SampleParameter.guess := None;
     SampleParameter.uncertainty := Some 0.1%R |}.

Definition beta_loglike (parameters : gmap string R) : result np.float64 :=
  np.Finite <$> getitem parameters "beta".

Definition beta_estimator : LikelihoodEstimatorBase.instance unit :=
  LikelihoodEstimatorBase.__init__ beta_loglike [beta] ∅ tt None.

(** A single age group, two time points, the initial condition in the
    first column: [i0] infected and [s0] susceptible. *)
Definition column (v : R) : np.array2 :=
  {| np.nrows := 1; np.ncols := 2;
     np.get := fun _ c => if decide (c = 0) then v else 0%R |}.

Definition one_group (s0 i0 : R) : SimulationResult.instance :=
  {| SimulationResult.t := [0; 0.05]%R;
     SimulationResult.y :=
       {[ "infected" := column i0; "susceptible" := column s0 ]} |}.

(** A simulation with [r0 = 0], a kernel and the total population set. *)
Definition no_transmission (kernel : list R) (total : R)
    : NonMarkovianSEIRSimulationBase.instance unit :=
  {| NonMarkovianSEIRSimulationBase.mitigation := fun _ => 1%R;
     NonMarkovianSEIRSimulationBase.serial_dist := tt;
     NonMarkovianSEIRSimulationBase.seasonal_forcing_amp := 0.2%R;
     NonMarkovianSEIRSimulationBase.peak_day := 15%R;
     NonMarkovianSEIRSimulationBase.r0 := 0%R;
     NonMarkovianSEIRSimulationBase.serial_pdf := Some kernel;
     NonMarkovianSEIRSimulationBase.total_population := Some total |}.

(** Constructor arguments over one age group of weight 1, the other
    probabilities at their default 1: a target [ifr], if any, and
    [p_symptomatic]. *)
Definition gamma (mean spread : R) : unit := tt.

Definition one_age (ifr : option R) (p_symptomatic : R)
    : SEIRPlusPlusSimulation.args unit :=
  let d := SEIRPlusPlusSimulation.defaults gamma (np.Vec [1%R]) in
  {| SEIRPlusPlusSimulation.mitigation := None;
     SEIRPlusPlusSimulation.age_distribution := np.Vec [1%R];
     SEIRPlusPlusSimulation.ifr := ifr;
     SEIRPlusPlusSimulation.r0 := SEIRPlusPlusSimulation.r0 d;
     SEIRPlusPlusSimulation.serial_dist := tt;
     SEIRPlusPlusSimulation.seasonal_forcing_amp :=
       SEIRPlusPlusSimulation.seasonal_forcing_amp d;
     SEIRPlusPlusSimulation.peak_day := SEIRPlusPlusSimulation.peak_day d;
     SEIRPlusPlusSimulation.incubation_dist := tt;
     SEIRPlusPlusSimulation.p_symptomatic := np.Scalar p_symptomatic;
     SEIRPlusPlusSimulation.p_positive := np.Scalar 1%R;
     SEIRPlusPlusSimulation.hospitalized_dist := tt;
     SEIRPlusPlusSimulation.p_hospitalized := np.Scalar 1%R;
     SEIRPlusPlusSimulation.discharged_dist := tt;
     SEIRPlusPlusSimulation.critical_dist := tt;
     SEIRPlusPlusSimulation.p_critical := np.Scalar 1%R;
     SEIRPlusPlusSimulation.dead_dist := tt;
     SEIRPlusPlusSimulation.p_dead := np.Scalar 1%R;
     SEIRPlusPlusSimulation.recovered_dist := tt;
     SEIRPlusPlusSimulation.all_dead_dist := tt;
     SEIRPlusPlusSimulation.all_dead_multiplier := np.Scalar 1%R |}.

(** Arrays that do not broadcast against each other. *)
Definition mismatched : SEIRPlusPlusSimulation.args unit :=
  let a := one_age (Some 0.01%R) 1 in
  {| SEIRPlusPlusSimulation.mitigation := None;
     SEIRPlusPlusSimulation.age_distribution := np.Vec [0.5; 0.5]%R;
     SEIRPlusPlusSimulation.ifr := Some 0.01%R;
     SEIRPlusPlusSimulation.r0 := SEIRPlusPlusSimulation.r0 a;
     SEIRPlusPlusSimulation.serial_dist := tt;
     SEIRPlusPlusSimulation.seasonal_forcing_amp :=
       SEIRPlusPlusSimulation.seasonal_forcing_amp a;
     SEIRPlusPlusSimulation.peak_day := SEIRPlusPlusSimulation.peak_day a;
     SEIRPlusPlusSimulation.incubation_dist := tt;
     SEIRPlusPlusSimulation.p_symptomatic := np.Vec [1; 1; 1]%R;
     SEIRPlusPlusSimulation.p_positive := np.Scalar 1%R;
     SEIRPlusPlusSimulation.hospitalized_dist := tt;
     SEIRPlusPlusSimulation.p_hospitalized := np.Scalar 1%R;
     SEIRPlusPlusSimulation.discharged_dist := tt;
     SEIRPlusPlusSimulation.critical_dist := tt;
     SEIRPlusPlusSimulation.p_critical := np.Scalar 1%R;
     SEIRPlusPlusSimulation.dead_dist := tt;
     SEIRPlusPlusSimulation.p_dead := np.Scalar 1%R;
     SEIRPlusPlusSimulation.recovered_dist := tt;
     SEIRPlusPlusSimulation.all_dead_dist := tt;
     SEIRPlusPlusSimulation.all_dead_multiplier := np.Scalar 1%R |}.

End Examples.

(** ** Further concrete inputs *)

Module Scenarios.

(** The legacy constructor with its defaults on two age groups of equal
    weight. *)
Definition legacy : OldSEIRPlusPlusSimulation.args unit :=
  {| OldSEIRPlusPlusSimulation.mitigation := None;
     OldSEIRPlusPlusSimulation.age_distribution := np.Vec [0.5; 0.5]%R;
     OldSEIRPlusPlusSimulation.ifr := Some 0.003%R;
     OldSEIRPlusPlusSimulation.r0 := 3.2%R;
     OldSEIRPlusPlusSimulation.serial_dist := tt;
     OldSEIRPlusPlusSimulation.seasonal_forcing_amp := 0.2%R;
     OldSEIRPlusPlusSimulation.peak_day := 15%R;
     OldSEIRPlusPlusSimulation.incubation_dist := tt;
     OldSEIRPlusPlusSimulation.p_observed := np.Scalar 1%R;
     OldSEIRPlusPlusSimulation.icu_dist := tt;
     OldSEIRPlusPlusSimulation.p_icu := np.Scalar 1%R;
     OldSEIRPlusPlusSimulation.dead_dist := tt;
     OldSEIRPlusPlusSimulation.p_dead := np.Scalar 1%R;
     OldSEIRPlusPlusSimulation.recovered_dist := tt |}.

End Scenarios.
(** * Properties *)

(** ** pydemic/__init__.py *)

Section AttrDictFacts.

Context {V : Type}.

Lemma dict_init_lookup (args : list (list (string * V)))
    (kwargs self : gmap string V) (k : string) (v : V) :
  AttrDict.dict_init args kwargs = Ok self ->
  kwargs !! k = Some v -> self !! k = Some v.
Proof.
  destruct args as [|items [|more rest]]; simpl; intros Hself Hk.
  - by inversion Hself; subst.
  - inversion Hself; subst. by apply lookup_union_Some_l.
  - discriminate.
Qed.

(** C1 (amended): a keyword named [self] raises TypeError; otherwise
    construction raises ValueError exactly when some declared field name
    is missing from the keyword arguments; when every declared name is
    supplied (extra names allowed, none of them [self], at most one
    positional argument) it succeeds, and every supplied keyword is
    readable as a mapping entry and, unless it names a data descriptor of
    the type, as an attribute. *)
Theorem AttrDict_requires_expected_kwargs
    (expected_kwargs : gset string) (args : list (list (string * V)))
    (kwargs : gmap string V) :
  ("self" ∈ dom kwargs ->
     AttrDict.__init__ expected_kwargs args kwargs = Raise TypeError) /\
  (AttrDict.__init__ expected_kwargs args kwargs = Raise ValueError
     <-> ("self" ∉ dom kwargs) /\ ~ expected_kwargs ⊆ dom kwargs) /\
  ("self" ∉ dom kwargs -> expected_kwargs ⊆ dom kwargs -> length args <= 1 ->
     exists self, AttrDict.__init__ expected_kwargs args kwargs = Ok self /\
       forall k v, kwargs !! k = Some v ->
         getitem self k = Ok v /\
         (k ∉ AttrDict.data_descriptors ->
            AttrDict.getattr self k = AttrDict.InstanceAttr v)).
Proof.
  unfold AttrDict.__init__. split; [|split].
  - intros Hself. by rewrite decide_True.
  - destruct (decide ("self" ∈ dom kwargs)) as [Hself|Hself].
    + split; [discriminate|]. by intros [Hno _].
    + destruct (decide (expected_kwargs ⊆ dom kwargs)) as [Hsub|Hsub].
      * split; [|by intros [_ Hno]].
        destruct args as [|items [|more rest]]; simpl; discriminate.
      * done.
  - intros Hself Hsub Hlen. rewrite decide_False, decide_True by done.
    assert (exists self, AttrDict.dict_init args kwargs = Ok self) as [self Hself'].
    { destruct args as [|items [|more rest]]; simpl in *; eauto; lia. }
    exists self. split; [done|]. intros k v Hk.
    pose proof (dict_init_lookup _ _ _ _ _ Hself' Hk) as Hlook.
    split.
    + unfold getitem. by rewrite Hlook.
    + intros Hdd. unfold AttrDict.getattr.
      rewrite decide_False by done. by rewrite Hlook.
Qed.

End AttrDictFacts.

(** C1, as stated, fails on AgeDistribution: a field name outside the
    declared set is accepted when both declared names are supplied, and a
    proper subset of the declared names is rejected. *)
Lemma AttrDict_subset_claim_fails :
  ("weights" ∉ AgeDistribution.expected_kwargs) /\
  AttrDict.__init__ AgeDistribution.expected_kwargs []
    Examples.age_kwargs_extra = Ok Examples.age_kwargs_extra /\
  (dom Examples.age_kwargs_partial ⊆ AgeDistribution.expected_kwargs) /\
  AttrDict.__init__ AgeDistribution.expected_kwargs []
    Examples.age_kwargs_partial = Raise ValueError.
Proof.
  split; [|split; [|split]].
  - apply (bool_decide_unpack _). vm_compute. exact I.
  - reflexivity.
  - apply (bool_decide_unpack _). vm_compute. exact I.
  - reflexivity.
Qed.

(** The spec's own example: both declared fields, nothing else. *)
Example AgeDistribution_example :
  AttrDict.__init__ AgeDistribution.expected_kwargs [] Examples.age_kwargs
    = Ok Examples.age_kwargs /\
  AttrDict.getattr Examples.age_kwargs "bin_edges"
    = AttrDict.InstanceAttr [0; 10; 20]%Z /\
  AttrDict.getattr Examples.age_kwargs "counts"
    = AttrDict.InstanceAttr [100; 90]%Z.
Proof. split; [reflexivity|]. split; reflexivity. Qed.
(** ** numpy broadcasting *)

Section Broadcasting.

Context {A B C D : Type}.

Lemma broadcast_amap_args {A' B'} (f : A -> B -> C) (g : A' -> A)
    (h : B' -> B) (a : np.ndarray A') (b : np.ndarray B') :
  np.broadcast f (np.amap g a) (np.amap h b)
  = np.broadcast (fun x y => f (g x) (h y)) a b.
Proof.
  destruct a as [x|xs], b as [y|ys]; simpl; try reflexivity.
  - by rewrite map_map.
  - by rewrite map_map.
  - rewrite !length_map.
    destruct (decide (length xs = length ys)) as [Hlen|Hlen].
    + by rewrite zip_with_fmap_l, zip_with_fmap_r.
    + destruct xs as [|x [|x' xs]], ys as [|y [|y' ys]]; simpl in *;
        try reflexivity; try congruence; by rewrite ?map_map.
Qed.

Lemma broadcast_amap_result (f : A -> B -> C) (g : C -> D)
    (a : np.ndarray A) (b : np.ndarray B) :
  np.amap g <$> np.broadcast f a b
  = np.broadcast (fun x y => g (f x y)) a b.
Proof.
  destruct a as [x|xs], b as [y|ys]; simpl; try reflexivity.
  - unfold fmap, result_fmap. simpl. by rewrite map_map.
  - unfold fmap, result_fmap. simpl. by rewrite map_map.
  - destruct (decide (length xs = length ys)) as [Hlen|Hlen].
    + unfold fmap, result_fmap. simpl. f_equal. f_equal.
      clear Hlen. revert ys. induction xs as [|x xs IH]; intros [|y ys];
        simpl; try reflexivity. by rewrite IH.
    + destruct xs as [|x [|x' xs]], ys as [|y [|y' ys]];
        unfold fmap, result_fmap; simpl in *;
        try reflexivity; try congruence; by rewrite ?map_map.
Qed.

End Broadcasting.

(** Swapping the operands of a broadcast swaps the arguments of the
    operation. *)
Lemma broadcast_flip {A B C} (f : A -> B -> C) (a : np.ndarray A)
    (b : np.ndarray B) :
  np.broadcast f a b = np.broadcast (fun y x => f x y) b a.
Proof.
  destruct a as [x|xs], b as [y|ys]; simpl; try reflexivity.
  destruct (decide (length xs = length ys)) as [Hlen|Hlen].
  - rewrite decide_True by done.
    f_equal. f_equal. clear Hlen. revert ys.
    induction xs as [|x xs IH]; intros [|y ys]; simpl; try reflexivity.
    by rewrite IH.
  - rewrite decide_False by done.
    destruct xs as [|x [|x' xs]], ys as [|y [|y' ys]]; simpl in *;
      try reflexivity; congruence.
Qed.

Lemma broadcast_ext {A B C} (f g : A -> B -> C) (a : np.ndarray A)
    (b : np.ndarray B) :
  (forall x y, f x y = g x y) -> np.broadcast f a b = np.broadcast g a b.
Proof.
  intros Hfg.
  assert (forall xs ys, zip_with f xs ys = zip_with g xs ys) as Hzip.
  { induction xs as [|x xs IH]; intros [|y ys]; simpl; try reflexivity.
    by rewrite Hfg, IH. }
  assert (forall x ys, map (f x) ys = map (g x) ys) as Hl.
  { intros x ys. apply map_ext. auto. }
  assert (forall y xs, map (fun x => f x y) xs = map (fun x => g x y) xs) as Hr.
  { intros y xs. apply map_ext. auto. }
  destruct a as [x|xs], b as [y|ys]; simpl;
    rewrite ?Hfg, ?Hl, ?Hr, ?Hzip; try reflexivity.
  destruct (decide (length xs = length ys)); [reflexivity|].
  destruct xs as [|x [|x' xs]], ys as [|y [|y' ys]]; simpl;
    rewrite ?Hfg, ?Hl, ?Hr; reflexivity.
Qed.

(** ** pydemic/sampling.py: the default norm *)

Lemma l2_log_norm_unfold (a b : np.ndarray R) :
  Sampling.l2_log_norm a b
  = (fun d => - (1 / 2) * np.sum d)%R
      <$> np.broadcast (fun x y => (ln x - ln y) ^ 2)%R a b.
Proof.
  unfold Sampling.l2_log_norm, np.subtract, np.log, np.power.
  rewrite broadcast_amap_args.
  rewrite <- (broadcast_amap_result (fun x y => ln x - ln y)%R
                (fun d => d ^ 2)%R).
  destruct (np.broadcast _ a b) as [d|e]; simpl; [|reflexivity].
  unfold fmap, result_fmap, mbind, result_bind. f_equal. lra.
Qed.

Lemma broadcast_self_zero (a : np.ndarray R) :
  exists d, np.broadcast (fun x y => (ln x - ln y) ^ 2)%R a a = Ok d /\
            np.sum d = 0%R.
Proof.
  destruct a as [x|xs]; simpl.
  - eexists. split; [reflexivity|]. unfold np.sum. simpl. lra.
  - rewrite decide_True by done. eexists. split; [reflexivity|].
    unfold np.sum. simpl. induction xs as [|x xs IH]; simpl; [done|].
    rewrite IH. lra.
Qed.

(** C10: the default norm is minus one half of the sum of squared
    differences of logarithms (with numpy's broadcasting of the two
    arrays); it is zero on equal arguments and symmetric, for positive
    arrays. *)
Theorem l2_log_norm_formula_zero_symmetric (a b : np.ndarray R) :
  Spec.positive a -> Spec.positive b ->
  Sampling.l2_log_norm a b
  = (fun d => - (1 / 2) * np.sum d)%R
      <$> np.broadcast (fun x y => (ln x - ln y) ^ 2)%R a b /\
  Sampling.l2_log_norm a a = Ok 0%R /\
  Sampling.l2_log_norm a b = Sampling.l2_log_norm b a.
Proof.
  intros _ _. split; [apply l2_log_norm_unfold|]. split.
  - rewrite l2_log_norm_unfold.
    destruct (broadcast_self_zero a) as (d & -> & Hd).
    unfold fmap, result_fmap. rewrite Hd. f_equal. lra.
  - rewrite !l2_log_norm_unfold. f_equal.
    rewrite broadcast_flip. apply broadcast_ext. intros x y. simpl. lra.
Qed.

Lemma l2_log_norm_formula_zero_symmetric_witness :
  Sampling.l2_log_norm (np.Vec [1; 2]%R) (np.Vec [2; 1]%R)
  = (fun d => - (1 / 2) * np.sum d)%R
      <$> np.broadcast (fun x y => (ln x - ln y) ^ 2)%R
            (np.Vec [1; 2]%R) (np.Vec [2; 1]%R) /\
  Sampling.l2_log_norm (np.Vec [1; 2]%R) (np.Vec [1; 2]%R) = Ok 0%R /\
  Sampling.l2_log_norm (np.Vec [1; 2]%R) (np.Vec [2; 1]%R)
  = Sampling.l2_log_norm (np.Vec [2; 1]%R) (np.Vec [1; 2]%R).
Proof.
  apply (l2_log_norm_formula_zero_symmetric (np.Vec [1; 2]%R)
           (np.Vec [2; 1]%R));
    unfold Spec.positive; simpl; repeat constructor; lra.
Defined.

(** ** pydemic/sampling.py: the bounds gate *)

Section LikelihoodGate.

Context {Data : Type}.

Lemma within_bounds_false (pars : list SampleParameter.instance) (theta : list R) :
  length theta = length pars ->
  LikelihoodEstimatorBase.within_bounds pars theta = false
  <-> Spec.some_outside pars theta.
Proof.
  revert theta. induction pars as [|par pars IH]; intros [|value theta] Hlen;
    simpl in *; try discriminate.
  - split; [discriminate|]. intros (i & p & v & Hp & _). by destruct i.
  - assert (length theta = length pars) as Hlen' by lia.
    specialize (IH theta Hlen').
    destruct (decide (fst (SampleParameter.bounds par) <= value)%R) as [Hlo|Hlo];
      [destruct (decide (value <= snd (SampleParameter.bounds par))%R)
         as [Hhi|Hhi]|].
    + rewrite !bool_decide_eq_true_2 by done. simpl. rewrite IH. split.
      * intros (i & p & v & Hp & Hv & Hout).
        exists (S i), p, v. by repeat split.
      * intros (i & p & v & Hp & Hv & Hout). destruct i as [|i]; simpl in *.
        -- inversion Hp; inversion Hv; subst.
           unfold Spec.strictly_outside in Hout. lra.
        -- exists i, p, v. by repeat split.
    + rewrite bool_decide_eq_true_2, bool_decide_eq_false_2 by done. simpl.
      split; [intros _|done]. exists 0%nat, par, value.
      repeat split; try done. right. lra.
    + rewrite bool_decide_eq_false_2 by done. simpl.
      split; [intros _|done]. exists 0%nat, par, value.
      repeat split; try done. left. lra.
Qed.

Lemma call_outcome
    (get_log_likelihood : gmap string R -> result np.float64)
    (fit_parameters : list SampleParameter.instance)
    (fixed_values : gmap string R) (data : Data)
    (norm : option (np.ndarray R -> np.ndarray R -> result R))
    (theta : list R) :
  LikelihoodEstimatorBase.__call__
    (LikelihoodEstimatorBase.__init__ get_log_likelihood fit_parameters
       fixed_values data norm) theta
  = if LikelihoodEstimatorBase.within_bounds fit_parameters theta
    then get_log_likelihood
           (dict (zip (map SampleParameter.name fit_parameters) theta))
    else Ok np.NegInf.
Proof.
  unfold LikelihoodEstimatorBase.__call__,
    LikelihoodEstimatorBase.check_within_bounds,
    LikelihoodEstimatorBase.__init__. simpl.
  by destruct (LikelihoodEstimatorBase.within_bounds fit_parameters theta).
Qed.

(** C5: for an estimator with any [get_log_likelihood] and a vector with
    one value per fit parameter, the call returns minus infinity when some
    component lies strictly outside its inclusive bounds, and otherwise
    returns [get_log_likelihood] of the dictionary zipping the
    fit-parameter names with the components; so minus infinity comes out
    exactly in the first case or when [get_log_likelihood] itself
    returns it. *)
Theorem call_gates_on_bounds
    (get_log_likelihood : gmap string R -> result np.float64)
    (fit_parameters : list SampleParameter.instance) (fixed_values : gmap string R)
    (data : Data) (norm : option (np.ndarray R -> np.ndarray R -> result R))
    (theta : list R) :
  length theta = length fit_parameters ->
  (Spec.some_outside fit_parameters theta ->
     LikelihoodEstimatorBase.__call__
       (LikelihoodEstimatorBase.__init__ get_log_likelihood fit_parameters
          fixed_values data norm) theta = Ok np.NegInf) /\
  (~ Spec.some_outside fit_parameters theta ->
     LikelihoodEstimatorBase.__call__
       (LikelihoodEstimatorBase.__init__ get_log_likelihood fit_parameters
          fixed_values data norm) theta
     = get_log_likelihood
         (dict (zip (map SampleParameter.name fit_parameters) theta))) /\
  (LikelihoodEstimatorBase.__call__
       (LikelihoodEstimatorBase.__init__ get_log_likelihood fit_parameters
          fixed_values data norm) theta = Ok np.NegInf
   <-> Spec.some_outside fit_parameters theta
       \/ get_log_likelihood
            (dict (zip (map SampleParameter.name fit_parameters) theta))
          = Ok np.NegInf).
Proof.
  intros Hlen.
  pose proof (within_bounds_false fit_parameters theta Hlen) as Hgate.
  rewrite call_outcome.
  destruct (LikelihoodEstimatorBase.within_bounds fit_parameters theta)
    eqn:Hwb.
  - assert (~ Spec.some_outside fit_parameters theta) as Hin.
    { intros Hout. apply Hgate in Hout. discriminate. }
    split; [done|]. split; [done|]. split; [by right|].
    intros [Hout|Hll]; done.
  - assert (Spec.some_outside fit_parameters theta) as Hout by by apply Hgate.
    split; [done|]. split; [done|]. split; [by left|done].
Qed.

End LikelihoodGate.

Lemma call_gates_on_bounds_witness :
  (Spec.some_outside [Examples.beta] [0.5%R] ->
     LikelihoodEstimatorBase.__call__ Examples.beta_estimator [0.5%R]
     = Ok np.NegInf) /\
  (~ Spec.some_outside [Examples.beta] [0.5%R] ->
     LikelihoodEstimatorBase.__call__ Examples.beta_estimator [0.5%R]
     = Examples.beta_loglike (dict (zip ["beta"] [0.5%R]))) /\
  (LikelihoodEstimatorBase.__call__ Examples.beta_estimator [0.5%R]
     = Ok np.NegInf
   <-> Spec.some_outside [Examples.beta] [0.5%R]
       \/ Examples.beta_loglike (dict (zip ["beta"] [0.5%R])) = Ok np.NegInf).
Proof.
  exact (call_gates_on_bounds Examples.beta_loglike [Examples.beta] ∅ tt None
           [0.5%R] eq_refl).
Defined.

(** The spec's examples: out-of-bounds proposals give minus infinity, an
    in-bounds proposal is delegated. *)
Example call_below_bounds :
  LikelihoodEstimatorBase.__call__ Examples.beta_estimator [(-0.1)%R]
  = Ok np.NegInf.
Proof.
  unfold Examples.beta_estimator. rewrite call_outcome. simpl.
  rewrite bool_decide_eq_false_2 by lra. reflexivity.
Qed.

Example call_above_bounds :
  LikelihoodEstimatorBase.__call__ Examples.beta_estimator [1.1%R]
  = Ok np.NegInf.
Proof.
  unfold Examples.beta_estimator. rewrite call_outcome. simpl.
  rewrite bool_decide_eq_true_2, bool_decide_eq_false_2 by lra. reflexivity.
Qed.

Example call_within_bounds :
  LikelihoodEstimatorBase.__call__ Examples.beta_estimator [0.5%R]
  = Ok (np.Finite 0.5%R).
Proof.
  unfold Examples.beta_estimator. rewrite call_outcome. simpl.
  rewrite !bool_decide_eq_true_2 by lra. reflexivity.
Qed.

(** ** pydemic/models/seirpp.py: seasonal forcing *)

Section SeasonalForcing.

Context {Dist : Type}.

Implicit Type self : NonMarkovianSEIRSimulationBase.instance Dist.

Lemma seasonal_forcing_at_peak self :
  NonMarkovianSEIRSimulationBase.seasonal_forcing self
    (NonMarkovianSEIRSimulationBase.peak_day self)
  = (1 + NonMarkovianSEIRSimulationBase.seasonal_forcing_amp self)%R.
Proof.
  unfold NonMarkovianSEIRSimulationBase.seasonal_forcing.
  replace (2 * PI * (NonMarkovianSEIRSimulationBase.peak_day self
                     - NonMarkovianSEIRSimulationBase.peak_day self) / 365)%R
    with 0%R by lra.
  rewrite cos_0. lra.
Qed.

(** C9: the multiplier is [1 + amp * cos(2 pi (t - peak_day) / 365)] at
    every time; at [peak_day] it is [1 + amp], which no other time exceeds
    when the amplitude is not negative; and it takes the same value 365
    days after [peak_day]. *)
Theorem seasonal_forcing_cosine_peak_period self :
  (forall t : R,
     NonMarkovianSEIRSimulationBase.seasonal_forcing self t
     = 1 + NonMarkovianSEIRSimulationBase.seasonal_forcing_amp self
           * cos (2 * PI * (t - NonMarkovianSEIRSimulationBase.peak_day self)
                  / 365))%R /\
  NonMarkovianSEIRSimulationBase.seasonal_forcing self
    (NonMarkovianSEIRSimulationBase.peak_day self)
  = (1 + NonMarkovianSEIRSimulationBase.seasonal_forcing_amp self)%R /\
  ((0 <= NonMarkovianSEIRSimulationBase.seasonal_forcing_amp self)%R ->
   forall t : R,
     (NonMarkovianSEIRSimulationBase.seasonal_forcing self t
      <= NonMarkovianSEIRSimulationBase.seasonal_forcing self
           (NonMarkovianSEIRSimulationBase.peak_day self))%R) /\
  NonMarkovianSEIRSimulationBase.seasonal_forcing self
    (NonMarkovianSEIRSimulationBase.peak_day self)
  = NonMarkovianSEIRSimulationBase.seasonal_forcing self
      (NonMarkovianSEIRSimulationBase.peak_day self + 365)%R.
Proof.
  split; [reflexivity|]. split; [apply seasonal_forcing_at_peak|]. split.
  - intros Hamp t. rewrite seasonal_forcing_at_peak.
    unfold NonMarkovianSEIRSimulationBase.seasonal_forcing.
    pose proof (COS_bound
      (2 * PI * (t - NonMarkovianSEIRSimulationBase.peak_day self) / 365))
      as [_ Hcos].
    nra.
  - rewrite seasonal_forcing_at_peak.
    unfold NonMarkovianSEIRSimulationBase.seasonal_forcing.
    replace (2 * PI * (NonMarkovianSEIRSimulationBase.peak_day self + 365
                       - NonMarkovianSEIRSimulationBase.peak_day self) / 365)%R
      with (2 * PI)%R by (field; lra).
    rewrite cos_2PI. lra.
Qed.

End SeasonalForcing.

(** ** pydemic/models/seirpp.py: the renewal step *)

Lemma bind_Ok {A B} (a : A) (k : A -> result B) : Ok a ≫= k = k a.
Proof. reflexivity. Qed.

Lemma index_in_range (n : nat) (i : Z) :
  (0 <= i < Z.of_nat n)%Z -> np.index n i = Ok (Z.to_nat i).
Proof. intros Hi. unfold np.index. by rewrite decide_True. Qed.

Lemma item_in_range {A} (xs : list A) (i : Z) :
  (0 <= i < Z.of_nat (length xs))%Z -> exists x, np.item xs i = Ok x.
Proof.
  intros Hi. unfold np.item. rewrite index_in_range by done. simpl.
  destruct (lookup_lt_is_Some_2 xs (Z.to_nat i)) as [x Hx]; [lia|].
  exists x. unfold mbind, result_bind. by rewrite Hx.
Qed.

Lemma slice_rev_len_prefix (n : nat) (count : Z) :
  (1 <= count <= Z.of_nat n)%Z ->
  np.slice_rev_len n (count - 1) = Z.to_nat count.
Proof.
  intros Hc. unfold np.slice_rev_len. rewrite decide_False by lia. lia.
Qed.

Lemma slice_stop_prefix (n : nat) (count : Z) :
  (0 <= count <= Z.of_nat n)%Z -> np.slice_stop n count = Z.to_nat count.
Proof.
  intros Hc. unfold np.slice_stop. rewrite decide_False by lia. lia.
Qed.

Lemma last_axis_in_range (a : np.array2) (i : Z) :
  (0 <= i < Z.of_nat (np.ncols a))%Z ->
  np.last_axis a i
  = Ok (np.Vec (map (fun r => np.get a r (Z.to_nat i)) (seq 0 (np.nrows a)))).
Proof.
  intros Hi. unfold np.last_axis. by rewrite index_in_range.
Qed.

(** Assigning a vector with one entry per row to a column in range. *)
Lemma set_last_axis_column (a : np.array2) (i : Z) (xs : list R) :
  (0 <= i < Z.of_nat (np.ncols a))%Z -> length xs = np.nrows a ->
  exists a', np.set_last_axis a i (np.Vec xs) = Ok a' /\
    np.nrows a' = np.nrows a /\ np.ncols a' = np.ncols a /\
    (forall r, r < np.nrows a ->
       np.get a' r (Z.to_nat i) = default 0%R (xs !! r)) /\
    (forall r c, c <> Z.to_nat i -> np.get a' r c = np.get a r c).
Proof.
  intros Hi Hlen. unfold np.set_last_axis. rewrite index_in_range by done.
  unfold mbind, result_bind.
  destruct xs as [|x [|x' xs]].
  - rewrite decide_True by done. eexists. split; [reflexivity|]. simpl.
    repeat split; intros; [by rewrite decide_True|by rewrite decide_False].
  - eexists. split; [reflexivity|]. simpl in *.
    repeat split.
    + intros r Hr. rewrite decide_True by done.
      assert (r = 0)%nat as -> by lia. done.
    + intros r c Hc. by rewrite decide_False.
  - rewrite decide_True by done. eexists. split; [reflexivity|]. simpl.
    repeat split; intros; [by rewrite decide_True|by rewrite decide_False].
Qed.

Section Step.

Context {Dist : Type}.

Implicit Type self : NonMarkovianSEIRSimulationBase.instance Dist.

(** C8: one step with [r0 = 0], on a state that has the two compartments
    over the same age groups with time index [count] (at least 1) in
    range, a kernel of at least [count] entries and a total population,
    returns; it writes zero new infections at [count] for every age group
    and copies the susceptible pool of [count - 1] to [count]; this for
    every kernel, step size, mitigation and total population. *)
Theorem step_without_transmission self (state : SimulationResult.instance)
    (count : Z) (dt : R) (infected susceptible : np.array2)
    (serial_pdf : list R) (total_population : R) :
  NonMarkovianSEIRSimulationBase.r0 self = 0%R ->
  NonMarkovianSEIRSimulationBase.serial_pdf self = Some serial_pdf ->
  NonMarkovianSEIRSimulationBase.total_population self
    = Some total_population ->
  SimulationResult.y state !! "infected" = Some infected ->
  SimulationResult.y state !! "susceptible" = Some susceptible ->
  np.nrows infected = np.nrows susceptible ->
  (1 <= count)%Z ->
  (count < Z.of_nat (length (SimulationResult.t state)))%Z ->
  (count < Z.of_nat (np.ncols infected))%Z ->
  (count < Z.of_nat (np.ncols susceptible))%Z ->
  (count <= Z.of_nat (length serial_pdf))%Z ->
  exists state' infected' susceptible',
    NonMarkovianSEIRSimulationBase.step self state count dt = Ok state' /\
    SimulationResult.y state' !! "infected" = Some infected' /\
    SimulationResult.y state' !! "susceptible" = Some susceptible' /\
    (forall age, age < np.nrows infected ->
       np.get infected' age (Z.to_nat count) = 0%R) /\
    (forall age, age < np.nrows susceptible ->
       np.get susceptible' age (Z.to_nat count)
       = np.get susceptible age (Z.to_nat (count - 1))).
Proof.
  intros Hr0 Hpdf Htotal Hinf Hsus Hrows Hc1 Hct Hci Hcs Hcp.
  unfold NonMarkovianSEIRSimulationBase.step.
  destruct (item_in_range (SimulationResult.t state) count) as [tc ->];
    [lia|].
  unfold getitem. rewrite Hinf, Hpdf, Hsus, Htotal. simpl.
  unfold np.dot.
  rewrite slice_rev_len_prefix, slice_stop_prefix by lia.
  rewrite length_take, Nat.min_l by lia.
  rewrite decide_True by done.
  rewrite bind_Ok.
  rewrite (last_axis_in_range susceptible (count - 1)) by lia.
  rewrite bind_Ok. simpl np.amap.
  rewrite Hr0.
  set (new := map _ (map _ (seq 0 (np.nrows susceptible)))).
  assert (length new = np.nrows susceptible) as Hnewlen.
  { unfold new. by rewrite !length_map, length_seq. }
  assert (forall r, default 0%R (new !! r) = 0%R) as Hnew.
  { intros r. unfold new. rewrite !list_lookup_fmap.
    destruct (seq 0 (np.nrows susceptible) !! r); simpl; lra. }
  destruct (set_last_axis_column infected count new)
    as (infected' & -> & Hn' & Hc' & Hcol' & Hother'); [lia|congruence|].
  rewrite bind_Ok.
  rewrite lookup_insert_ne by done. rewrite Hsus, bind_Ok.
  rewrite (last_axis_in_range susceptible (count - 1)) by lia.
  rewrite bind_Ok.
  unfold np.subtract, np.broadcast.
  rewrite length_map, length_seq, Hnewlen, decide_True by done.
  rewrite bind_Ok.
  set (rest := zip_with _ _ new).
  assert (length rest = np.nrows susceptible) as Hrestlen.
  { unfold rest. rewrite length_zip_with, length_map, length_seq. lia. }
  destruct (set_last_axis_column susceptible count rest)
    as (susceptible' & -> & Hsn & Hsc & Hscol & Hsother); [lia|done|].
  rewrite bind_Ok.
  eexists _, infected', susceptible'. split; [reflexivity|]. simpl.
  split; [by rewrite lookup_insert_ne, lookup_insert_eq|].
  split; [by rewrite lookup_insert_eq|].
  split.
  - intros age Hage. rewrite Hcol' by done. apply Hnew.
  - intros age Hage. rewrite Hscol by done. unfold rest.
    rewrite lookup_zip_with, list_lookup_fmap, lookup_seq_lt by done.
    simpl. pose proof (Hnew age) as Hz.
    destruct (new !! age) eqn:Hlook; simpl in *.
    + subst. lra.
    + apply lookup_ge_None in Hlook. lia.
Qed.

End Step.

(** One age group with [total_population = S0 + I0], here 99 + 1. *)
Lemma step_without_transmission_witness :
  exists state' infected' susceptible',
    NonMarkovianSEIRSimulationBase.step
      (Examples.no_transmission [0.3%R] (99 + 1)%R)
      (Examples.one_group 99 1) 1 0.05%R = Ok state' /\
    SimulationResult.y state' !! "infected" = Some infected' /\
    SimulationResult.y state' !! "susceptible" = Some susceptible' /\
    (forall age, age < np.nrows (Examples.column 1) ->
       np.get infected' age (Z.to_nat 1) = 0%R) /\
    (forall age, age < np.nrows (Examples.column 99) ->
       np.get susceptible' age (Z.to_nat 1)
       = np.get (Examples.column 99) age (Z.to_nat (1 - 1))).
Proof.
  apply (step_without_transmission
           (Examples.no_transmission [0.3%R] (99 + 1)%R)
           (Examples.one_group 99 1) 1 0.05%R
           (Examples.column 1) (Examples.column 99) [0.3%R] (99 + 1)%R);
    try reflexivity; simpl; lia.
Defined.

(** ** pydemic/models/seirpp.py: the import of the exception class *)

Lemma InvalidParametersError_undefined :
  "InvalidParametersError" ∉ Sampling.module.
Proof. apply (bool_decide_unpack _). vm_compute. exact I. Qed.

Lemma import_InvalidParametersError :
  import_from Sampling.module "InvalidParametersError" = Raise ImportError.
Proof.
  unfold import_from.
  by rewrite decide_False by apply InvalidParametersError_undefined.
Qed.

Section ImportError.

Context {Table Dist : Type}.

Variable remainder :
  NonMarkovianSEIRSimulationBase.kwarg -> R -> list R ->
  gmap string NonMarkovianSEIRSimulationBase.kwarg -> result Table.

Lemma get_model_data_outcome
    (t : NonMarkovianSEIRSimulationBase.time_index)
    (kwargs : gmap string NonMarkovianSEIRSimulationBase.kwarg) :
  NonMarkovianSEIRSimulationBase.get_model_data Sampling.module remainder
    t kwargs
  = match kwargs !! "start_day" with
    | None => Raise KeyError
    | Some _ =>
        match NonMarkovianSEIRSimulationBase.days_since_epoch t with
        | [] => Raise IndexError
        | _ => Raise ImportError
        end
    end.
Proof.
  unfold NonMarkovianSEIRSimulationBase.get_model_data, getitem.
  destruct (kwargs !! "start_day") as [t0|]; [|reflexivity].
  rewrite bind_Ok.
  set (days := NonMarkovianSEIRSimulationBase.days_since_epoch t).
  destruct (decide (days = [])) as [->|Hne]; [reflexivity|].
  assert (exists x, np.item days (-1) = Ok x) as [x ->].
  { unfold np.item, np.index.
    assert (0 < length days) as Hlen by (destruct days; [done|simpl; lia]).
    rewrite decide_False by lia. rewrite decide_True by lia.
    rewrite bind_Ok.
    destruct (lookup_lt_is_Some_2 days
                (Z.to_nat (Z.of_nat (length days) + -1))) as [x Hx]; [lia|].
    exists x. by rewrite Hx. }
  rewrite bind_Ok, import_InvalidParametersError.
  destruct days; [done|reflexivity].
Qed.

Lemma init_outcome (a : SEIRPlusPlusSimulation.args Dist) :
  SEIRPlusPlusSimulation.__init__ Sampling.module a
  = match SEIRPlusPlusSimulation.rescaled_p_symptomatic a with
    | Ok _ => Raise ImportError
    | Raise e => Raise e
    end.
Proof.
  unfold SEIRPlusPlusSimulation.__init__.
  destruct (SEIRPlusPlusSimulation.rescaled_p_symptomatic a) as [p|e];
    [|reflexivity].
  by rewrite bind_Ok, import_InvalidParametersError.
Qed.

(** Broadcasting raises nothing but ValueError. *)
Lemma broadcast_error {A B C} (f : A -> B -> C) (a : np.ndarray A)
    (b : np.ndarray B) (e : exn) :
  np.broadcast f a b = Raise e -> e = ValueError.
Proof.
  destruct a as [x|xs], b as [y|ys]; simpl; try discriminate.
  destruct (decide (length xs = length ys)); [discriminate|].
  destruct xs as [|x [|x' xs]], ys as [|y [|y' ys]]; simpl;
    try discriminate; congruence.
Qed.

Lemma rescaled_p_symptomatic_error (a : SEIRPlusPlusSimulation.args Dist)
    (e : exn) :
  SEIRPlusPlusSimulation.rescaled_p_symptomatic a = Raise e ->
  e = ValueError.
Proof.
  unfold SEIRPlusPlusSimulation.rescaled_p_symptomatic,
    SEIRPlusPlusSimulation.p_dead_net, SEIRPlusPlusSimulation.weighted_sum,
    np.multiply.
  destruct (SEIRPlusPlusSimulation.ifr a); [|discriminate].
  repeat match goal with
  | |- context [np.broadcast ?f ?x ?y] =>
      let H := fresh "H" in
      destruct (np.broadcast f x y) eqn:H;
      [rewrite ?bind_Ok|apply broadcast_error in H; simpl; congruence]
  end.
  discriminate.
Qed.

(** C2 (amended): the name [InvalidParametersError] is not bound in
    pydemic/sampling.py, so every call of [get_model_data] that reaches
    the import (a [start_day] keyword and at least one evaluation time)
    raises ImportError, and so does every construction of
    [SEIRPlusPlusSimulation] whose back-solve of lines 393-399 completes
    (always when no [ifr] is given, otherwise when its arrays broadcast);
    a construction whose back-solve raises fails with numpy's ValueError
    instead.  No call returns a result or raises InvalidParametersError. *)
Theorem import_error_precedes_validation :
  ("InvalidParametersError" ∉ Sampling.module) /\
  (forall t kwargs,
     (is_Some (kwargs !! "start_day") ->
      NonMarkovianSEIRSimulationBase.days_since_epoch t <> [] ->
      NonMarkovianSEIRSimulationBase.get_model_data Sampling.module
        remainder t kwargs = Raise ImportError) /\
     ~ is_Ok (NonMarkovianSEIRSimulationBase.get_model_data Sampling.module
                remainder t kwargs) /\
     ~ is_InvalidParameters
         (NonMarkovianSEIRSimulationBase.get_model_data Sampling.module
            remainder t kwargs)) /\
  (forall a : SEIRPlusPlusSimulation.args Dist,
     (is_Ok (SEIRPlusPlusSimulation.rescaled_p_symptomatic a) ->
      SEIRPlusPlusSimulation.__init__ Sampling.module a = Raise ImportError) /\
     (SEIRPlusPlusSimulation.ifr a = None ->
      SEIRPlusPlusSimulation.__init__ Sampling.module a = Raise ImportError) /\
     (~ is_Ok (SEIRPlusPlusSimulation.rescaled_p_symptomatic a) ->
      SEIRPlusPlusSimulation.__init__ Sampling.module a = Raise ValueError) /\
     ~ is_Ok (SEIRPlusPlusSimulation.__init__ Sampling.module a) /\
     ~ is_InvalidParameters
         (SEIRPlusPlusSimulation.__init__ Sampling.module a)).
Proof.
  split; [apply InvalidParametersError_undefined|]. split.
  - intros t kwargs. rewrite get_model_data_outcome.
    destruct (kwargs !! "start_day") as [t0|]; simpl.
    + destruct (NonMarkovianSEIRSimulationBase.days_since_epoch t); simpl;
        repeat split; auto; done.
    + repeat split; auto. by intros [? ?].
  - intros a. rewrite init_outcome.
    destruct (SEIRPlusPlusSimulation.rescaled_p_symptomatic a) as [p|e] eqn:Hp;
      simpl.
    + repeat split; auto. intros Hno. by destruct Hno.
    + apply rescaled_p_symptomatic_error in Hp as Hv. subst e.
      split; [done|]. split; [|split; [done|split; [auto|auto]]].
      intros Hnone. unfold SEIRPlusPlusSimulation.rescaled_p_symptomatic in Hp.
      rewrite Hnone in Hp. discriminate.
Qed.

(** C4, on the source as it is: with [start_day = 10] the evaluation time
    10.5 raises ImportError, not InvalidParametersError, and so does the
    evaluation time 11. *)
Theorem time_floor_check_is_unreachable :
  NonMarkovianSEIRSimulationBase.get_model_data Sampling.module remainder
    (NonMarkovianSEIRSimulationBase.DayArray [10.5%R])
    {[ "start_day" := NonMarkovianSEIRSimulationBase.KFloat 10 ]}
  = Raise ImportError /\
  NonMarkovianSEIRSimulationBase.get_model_data Sampling.module remainder
    (NonMarkovianSEIRSimulationBase.DayArray [11%R])
    {[ "start_day" := NonMarkovianSEIRSimulationBase.KFloat 10 ]}
  = Raise ImportError.
Proof. split; rewrite get_model_data_outcome; reflexivity. Qed.

(** Were the class defined in pydemic/sampling.py, lines 227-230 would
    do what the docstring says: raise when some evaluation time is earlier
    than [start_day + 1], and go on otherwise. *)
Lemma time_floor_check_when_importable (sampling : gset string)
    (t : NonMarkovianSEIRSimulationBase.time_index)
    (kwargs : gmap string NonMarkovianSEIRSimulationBase.kwarg)
    (start_day : R) :
  "InvalidParametersError" ∈ sampling ->
  kwargs !! "start_day"
    = Some (NonMarkovianSEIRSimulationBase.KFloat start_day) ->
  NonMarkovianSEIRSimulationBase.days_since_epoch t <> [] ->
  (Exists (fun day => day < start_day + 1)%R
     (NonMarkovianSEIRSimulationBase.days_since_epoch t) ->
   is_InvalidParameters
     (NonMarkovianSEIRSimulationBase.get_model_data sampling remainder
        t kwargs)) /\
  (Forall (fun day => start_day + 1 <= day)%R
     (NonMarkovianSEIRSimulationBase.days_since_epoch t) ->
   exists last,
     np.item (NonMarkovianSEIRSimulationBase.days_since_epoch t) (-1)
       = Ok last /\
     NonMarkovianSEIRSimulationBase.get_model_data sampling remainder
       t kwargs
     = remainder (NonMarkovianSEIRSimulationBase.KFloat start_day)
         (last + 2)%R (NonMarkovianSEIRSimulationBase.days_since_epoch t)
         (delete "start_day" kwargs)).
Proof.
  intros Hdef Hstart Hne.
  unfold NonMarkovianSEIRSimulationBase.get_model_data, getitem.
  rewrite Hstart, bind_Ok.
  set (days := NonMarkovianSEIRSimulationBase.days_since_epoch t) in *.
  assert (exists x, np.item days (-1) = Ok x) as [x Hx].
  { unfold np.item, np.index.
    assert (0 < length days) as Hlen by (destruct days; [done|simpl; lia]).
    rewrite decide_False by lia. rewrite decide_True by lia.
    rewrite bind_Ok.
    destruct (lookup_lt_is_Some_2 days
                (Z.to_nat (Z.of_nat (length days) + -1))) as [x Hx]; [lia|].
    exists x. by rewrite Hx. }
  rewrite Hx, bind_Ok. unfold import_from. rewrite decide_True by done.
  rewrite !bind_Ok. simpl. unfold np.any. simpl.
  split.
  - intros Hex.
    assert (existsb (fun b : bool => b)
              (map (fun x => bool_decide (x < start_day + 1)%R) days) = true)
      as ->; [|done].
    apply existsb_exists. apply Exists_exists in Hex as (day & Hin & Hday).
    exists true. split; [|done].
    apply in_map_iff. exists day. split; [by apply bool_decide_eq_true_2|].
    by apply list_elem_of_In.
  - intros Hall. exists x. split; [done|].
    assert (existsb (fun b : bool => b)
              (map (fun x => bool_decide (x < start_day + 1)%R) days) = false)
      as ->; [|done].
    apply not_true_is_false. intros Hex.
    apply existsb_exists in Hex as (b & Hin & ->).
    apply in_map_iff in Hin as (day & Hb & Hin).
    apply bool_decide_eq_true_1 in Hb.
    rewrite Forall_forall in Hall. apply list_elem_of_In in Hin.
    specialize (Hall day Hin). lra.
Qed.

End ImportError.

(** C2, as stated, fails on a construction whose arrays do not
    broadcast in the back-solve (two age groups, three entries of
    [p_symptomatic]): numpy's ValueError is raised at line 395, before
    the import of line 402 is reached. *)
Lemma construction_with_mismatched_shapes :
  SEIRPlusPlusSimulation.ifr Examples.mismatched = Some 0.01%R /\
  SEIRPlusPlusSimulation.age_distribution Examples.mismatched
  = np.Vec [0.5; 0.5]%R /\
  SEIRPlusPlusSimulation.p_symptomatic Examples.mismatched
  = np.Vec [1; 1; 1]%R /\
  SEIRPlusPlusSimulation.__init__ Sampling.module Examples.mismatched
  = Raise ValueError.
Proof.
  split; [reflexivity|]. split; [reflexivity|]. split; [reflexivity|].
  rewrite init_outcome. reflexivity.
Qed.

(** ** pydemic/models/seirpp.py: the back-solve for the fatality ratio *)

Lemma amap_id {A} (a : np.ndarray A) : np.amap (fun x => x) a = a.
Proof. destruct a as [x|xs]; simpl; [done|]. by rewrite map_id. Qed.

Lemma multiply_imul (a b : np.ndarray R) (c : R) :
  np.multiply (np.imul a c) b = (fun r => np.imul r c) <$> np.multiply a b.
Proof.
  unfold np.multiply, np.imul.
  rewrite <- (amap_id b) at 1. rewrite broadcast_amap_args.
  rewrite (broadcast_amap_result Rmult (fun z => z * c)%R).
  apply broadcast_ext. intros x y. lra.
Qed.

Lemma list_sum_scaled (xs : list R) (c : R) :
  np.list_sum (map (fun x => x * c)%R xs) = (np.list_sum xs * c)%R.
Proof.
  induction xs as [|x xs IH]; simpl; [lra|]. rewrite IH. lra.
Qed.

Lemma sum_imul (a : np.ndarray R) (c : R) :
  np.sum (np.imul a c) = (np.sum a * c)%R.
Proof.
  destruct a as [x|xs]; unfold np.sum; simpl; [lra|apply list_sum_scaled].
Qed.

Lemma fmap_bind {A B C} (f : A -> B) (m : result A) (k : B -> result C) :
  (f <$> m) ≫= k = m ≫= (fun a => k (f a)).
Proof. by destruct m. Qed.

Lemma bind_fmap {A B C} (m : result A) (k : A -> result B) (f : B -> C) :
  f <$> (m ≫= k) = m ≫= (fun a => f <$> k a).
Proof. by destruct m. Qed.

Lemma bind_ext {A B} (m : result A) (k k' : A -> result B) :
  (forall a, k a = k' a) -> m ≫= k = m ≫= k'.
Proof. intros Hk. destruct m; simpl; [apply Hk|done]. Qed.

(** C6, on the source as it is: for one age group of weight 1, the other
    factors 1 and [ifr = 0.01], lines 384-399 rescale [p_symptomatic] to
    0.01, as the claim says; the constructor then raises ImportError at
    line 402, so no instance ever carries the rescaled value. *)
Theorem ifr_rescaling_is_never_delivered :
  SEIRPlusPlusSimulation.rescaled_p_symptomatic
    (Examples.one_age (Some 0.01%R) 1)
  = Ok (np.Scalar 0.01%R) /\
  SEIRPlusPlusSimulation.__init__ Sampling.module
    (Examples.one_age (Some 0.01%R) 1)
  = Raise ImportError.
Proof.
  split.
  - unfold SEIRPlusPlusSimulation.rescaled_p_symptomatic. simpl.
    unfold np.sum. simpl. do 2 f_equal. lra.
  - rewrite init_outcome. reflexivity.
Qed.


(** ** pydemic/models/seirpp.py: the probability cascade *)

Lemma too_large_step (p q : np.ndarray R) (later : list (np.ndarray R))
    (n : string) (names : list string) :
  SEIRPlusPlusSimulation.too_large (p :: q :: later) (n :: names)
  = if decide (np.sum p < np.sum q)%R then Some n
    else SEIRPlusPlusSimulation.too_large (q :: later) names.
Proof. reflexivity. Qed.

Lemma too_large_first_increase (p_progression : list (np.ndarray R))
    (names : list string) (name : string) :
  length p_progression = S (length names) ->
  SEIRPlusPlusSimulation.too_large p_progression names = Some name
  <-> Spec.first_increase p_progression names name.
Proof.
  revert p_progression.
  induction names as [|n names IH]; intros prog Hlen.
  - split.
    + destruct prog as [|p [|q prog]]; discriminate.
    + intros (i & p & q & Hname & _). by destruct i.
  - destruct prog as [|p [|q prog]]; simpl in Hlen; try lia.
    rewrite too_large_step.
    destruct (decide (np.sum p < np.sum q)%R) as [Hlt|Hge].
    + split.
      * intros [= <-]. exists 0, p, q. repeat split; try done. intros; lia.
      * intros (i & p' & q' & Hname & Hp & Hq & Hlt' & Hfirst).
        destruct i as [|i]; simpl in *; [congruence|].
        exfalso. specialize (Hfirst 0 p q). simpl in Hfirst.
        specialize (Hfirst ltac:(lia) eq_refl eq_refl). lra.
    + rewrite IH by (simpl; lia). split.
      * intros (i & p' & q' & Hname & Hp & Hq & Hlt' & Hfirst).
        exists (S i), p', q'. repeat split; try done.
        intros j p'' q'' Hj Hp'' Hq''. destruct j as [|j]; simpl in *.
        -- inversion Hp''; inversion Hq''; subst. lra.
        -- apply (Hfirst j); [lia|done..].
      * intros (i & p' & q' & Hname & Hp & Hq & Hlt' & Hfirst).
        destruct i as [|i]; simpl in *.
        -- inversion Hp; inversion Hq; subst. lra.
        -- exists i, p', q'. repeat split; try done.
           intros j p'' q'' Hj Hp'' Hq''.
           apply (Hfirst (S j)); [lia|done..].
Qed.

(** C7, on the source as it is: with one age group, [p_symptomatic = 0.5]
    and [ifr = 1.2], the back-solve gives [p_symptomatic = 1.2], and the
    check of lines 404-411 would name [p_symptomatic], the weighted sum
    rising from 1 to 1.2 at the first stage; but the constructor raises
    ImportError at line 402, before the check, and never the error the
    claim names. *)
Theorem cascade_check_is_unreachable :
  SEIRPlusPlusSimulation.__init__ Sampling.module
    (Examples.one_age (Some 1.2%R) 0.5)
  = Raise ImportError /\
  exists p p_progression,
    SEIRPlusPlusSimulation.rescaled_p_symptomatic
      (Examples.one_age (Some 1.2%R) 0.5) = Ok (np.Scalar p) /\
    p = 1.2%R /\
    SEIRPlusPlusSimulation.p_progression (np.Vec [1%R])
      [np.Scalar p; np.Scalar 1%R; np.Scalar 1%R; np.Scalar 1%R]
    = Ok p_progression /\
    SEIRPlusPlusSimulation.too_large p_progression
      SEIRPlusPlusSimulation.names = Some "p_symptomatic".
Proof.
  split; [rewrite init_outcome; reflexivity|].
  assert (0.5 * (1.2 / (0.5 * 1 * 1 * 1 * 1 * 1 + 0)) = 1.2)%R as Hp.
  { replace (0.5 * 1 * 1 * 1 * 1 * 1 + 0)%R with 0.5%R by lra.
    unfold Rdiv. lra. }
  eexists _, _. split; [reflexivity|]. split; [exact Hp|].
  split; [reflexivity|].
  unfold SEIRPlusPlusSimulation.names. rewrite too_large_step.
  rewrite decide_True; [reflexivity|].
  unfold np.sum. simpl. rewrite Hp. lra.
Qed.

(** ** pydemic/hdf.py *)

(** The sentinel convention itself loses nothing. *)
Lemma denanify_nanify (x : option R) :
  HDFBackend.denanify (HDFBackend.nanify x) = x.
Proof. by destruct x. Qed.

(** A sample parameter has no attribute [sigma]. *)
Lemma nanified_sigma (par : SampleParameter.instance)
    (pars : list SampleParameter.instance) :
  HDFBackend.nanified "sigma" (par :: pars) = Raise AttributeError.
Proof. reflexivity. Qed.

Lemma nanified_guess (pars : list SampleParameter.instance) :
  HDFBackend.nanified "guess" pars
  = Ok (map (fun par => HDFBackend.nanify (SampleParameter.guess par)) pars).
Proof.
  induction pars as [|par pars IH]; [reflexivity|].
  simpl. unfold SampleParameter.getattr. simpl. by rewrite IH.
Qed.

Lemma nanified_uncertainty (pars : list SampleParameter.instance) :
  HDFBackend.nanified "uncertainty" pars
  = Ok (map (fun par => HDFBackend.nanify (SampleParameter.uncertainty par))
          pars).
Proof.
  induction pars as [|par pars IH]; [reflexivity|].
  simpl. unfold SampleParameter.getattr. simpl. by rewrite IH.
Qed.

(** The reader hands five positional arguments to a constructor that
    takes four: no parameter is ever read back. *)
Lemma read_parameter_raises (f : HDFBackend.file) (i : nat) (name : string) :
  ~ is_Ok (HDFBackend.read_parameter f i name).
Proof.
  unfold HDFBackend.read_parameter.
  destruct (HDFBackend.bounds_at f i) as [bounds|e]; [|auto].
  rewrite bind_Ok. simpl.
  destruct (HDFBackend.float_at f "guess" i) as [g|e]; [|auto].
  destruct (HDFBackend.float_at f "uncertainty" i) as [u|e]; [|auto].
  destruct (HDFBackend.float_at f "sigma" i) as [s|e]; [|auto].
  simpl. auto.
Qed.

Lemma fit_parameters_reads_nothing (f : HDFBackend.file)
    (pars : list SampleParameter.instance) :
  HDFBackend.fit_parameters f = Ok pars -> pars = [].
Proof.
  unfold HDFBackend.fit_parameters.
  destruct (getitem (HDFBackend.groups f) "fit_parameters") as [g|e];
    [|discriminate].
  rewrite bind_Ok.
  destruct (getitem g "names") as [d|e]; [|discriminate].
  rewrite bind_Ok.
  destruct d as [x|names|bs|xs]; try discriminate.
  destruct names as [|name names]; simpl; [by intros [= <-]|].
  pose proof (read_parameter_raises f 0 name) as Hraise.
  destruct (HDFBackend.read_parameter f 0 name); [by destruct Hraise|].
  discriminate.
Qed.

Lemma wbind_continuation_raises {A B} (m : HDFBackend.writer A)
    (k : A -> HDFBackend.writer B) (f : HDFBackend.file) :
  (forall a f', ~ is_Ok (snd (k a f'))) ->
  ~ is_Ok (snd (HDFBackend.wbind m k f)).
Proof.
  intros Hk. unfold HDFBackend.wbind.
  destruct (m f) as [f' [a|e]]; [apply Hk|auto].
Qed.

Lemma wbind_first_raises {A B} (m : HDFBackend.writer A)
    (k : A -> HDFBackend.writer B) (f : HDFBackend.file) :
  ~ is_Ok (snd (m f)) -> ~ is_Ok (snd (HDFBackend.wbind m k f)).
Proof.
  unfold HDFBackend.wbind. destruct (m f) as [f' [a|e]]; simpl; auto.
Qed.

(** Whatever the file held, a non-empty list of fit parameters makes
    the constructor raise. *)
Lemma init_raises_with_fit_parameters (data_module : gset string)
    (f : HDFBackend.file)
    (par : SampleParameter.instance) (pars : list SampleParameter.instance)
    (fixed_values : option (gmap string R)) (simulator : option string) :
  ~ is_Ok (snd (HDFBackend.__init__ data_module (Some (par :: pars))
                  fixed_values simulator f)).
Proof.
  unfold HDFBackend.__init__.
  apply wbind_continuation_raises. intros _ f1.
  apply wbind_first_raises.
  do 7 (apply wbind_continuation_raises; intros ? ?).
  apply wbind_first_raises.
  unfold HDFBackend.lift. rewrite nanified_sigma. simpl. auto.
Qed.

(** C3, on the source as it is: writing the spec's fixed values and fit
    parameter to a new file raises AttributeError at [par.sigma], after the
    fixed values, names, bounds, guesses and uncertainties are written;
    reopening the file, the fixed values read back, and reading the fit
    parameters raises KeyError for the missing [sigma] dataset.  The same
    happens for a parameter without a guess, whose NaN sentinel is written
    but never read back. *)
Theorem backend_round_trip_fails (data_module : gset string) :
  snd (HDFBackend.__init__ data_module (Some [Examples.beta])
         (Some {[ "r0" := 3.2%R ]}) None HDFBackend.empty_file)
  = Raise AttributeError /\
  HDFBackend.fixed_values
    (fst (HDFBackend.__init__ data_module (Some [Examples.beta])
            (Some {[ "r0" := 3.2%R ]}) None HDFBackend.empty_file))
  = Ok {[ "r0" := HDFBackend.Scalar64 3.2%R ]} /\
  HDFBackend.fit_parameters
    (fst (HDFBackend.__init__ data_module (Some [Examples.beta])
            (Some {[ "r0" := 3.2%R ]}) None HDFBackend.empty_file))
  = Raise KeyError /\
  snd (HDFBackend.__init__ data_module (Some [Examples.beta_no_guess])
         None None HDFBackend.empty_file)
  = Raise AttributeError /\
  HDFBackend.float_at
    (fst (HDFBackend.__init__ data_module (Some [Examples.beta_no_guess])
            None None HDFBackend.empty_file)) "guess" 0
  = Ok np.NaN /\
  HDFBackend.fit_parameters
    (fst (HDFBackend.__init__ data_module (Some [Examples.beta_no_guess])
            None None HDFBackend.empty_file))
  = Raise KeyError.
Proof. repeat split; reflexivity. Qed.

(** * Further properties *)

(** ** Python dictionaries built from pairs *)

Lemma dict_snoc {V} (items : list (string * V)) (k : string) (v : V) :
  dict (items ++ [(k, v)]) = <[k := v]> (dict items).
Proof. unfold dict. by rewrite foldl_app. Qed.

Lemma dict_lookup_not_in {V} (items : list (string * V)) (k : string) :
  k ∉ items.*1 -> dict items !! k = None.
Proof.
  induction items as [|[k' v'] items IH] using rev_ind; intros Hk.
  - apply lookup_empty.
  - rewrite dict_snoc. rewrite fmap_app in Hk. simpl in Hk.
    rewrite lookup_insert_ne by (intros ->; apply Hk, elem_of_app; right;
      apply list_elem_of_singleton; done).
    apply IH. intros Hin. apply Hk, elem_of_app. by left.
Qed.

(** The last pair of a key decides its value. *)
Lemma dict_lookup_last {V} (before after : list (string * V)) (k : string)
    (v : V) :
  k ∉ after.*1 -> dict (before ++ (k, v) :: after) !! k = Some v.
Proof.
  induction after as [|[k' v'] after IH] using rev_ind; intros Hk.
  - by rewrite dict_snoc, lookup_insert_eq.
  - rewrite fmap_app in Hk. simpl in Hk.
    replace (before ++ (k, v) :: after ++ [(k', v')])%list
      with ((before ++ (k, v) :: after) ++ [(k', v')])%list
      by by rewrite <- app_assoc.
    rewrite dict_snoc, lookup_insert_ne.
    + apply IH. intros Hin. apply Hk, elem_of_app. by left.
    + intros ->. apply Hk, elem_of_app. right. by left.
Qed.

Lemma dict_lookup_Some {V} (items : list (string * V)) (k : string) (v : V) :
  dict items !! k = Some v -> (k, v) ∈ items.
Proof.
  induction items as [|[k' v'] items IH] using rev_ind.
  - unfold dict. simpl. by rewrite lookup_empty.
  - rewrite dict_snoc. destruct (decide (k' = k)) as [->|Hne].
    + rewrite lookup_insert_eq. intros [= ->]. set_solver.
    + rewrite lookup_insert_ne by done. intros Hk. apply IH in Hk. set_solver.
Qed.

(** ** pydemic/__init__.py: positional arguments *)

Section AttrDictPositional.

Context {V : Type}.

(** X1: only keywords count as supplied fields.  With a declared field
    and no keywords, construction raises ValueError whatever is passed
    positionally; with all declared fields among the keywords, a second
    positional argument raises TypeError, and (no keyword being named
    [self]) one positional argument is merged in: a key takes its keyword
    value if it has one, and otherwise the value of its last positional
    pair. *)
Theorem AttrDict_positional_arguments (expected_kwargs : gset string)
    (kwargs : gmap string V) :
  (forall args, expected_kwargs <> ∅ ->
     AttrDict.__init__ expected_kwargs args (∅ : gmap string V)
     = Raise ValueError) /\
  (forall first second rest, expected_kwargs ⊆ dom kwargs ->
     AttrDict.__init__ expected_kwargs (first :: second :: rest) kwargs
     = Raise TypeError) /\
  (forall items, "self" ∉ dom kwargs -> expected_kwargs ⊆ dom kwargs ->
     exists self,
       AttrDict.__init__ expected_kwargs [items] kwargs = Ok self /\
       (forall k v, kwargs !! k = Some v -> self !! k = Some v) /\
       (forall before after k v, kwargs !! k = None -> k ∉ after.*1 ->
          items = (before ++ (k, v) :: after)%list -> self !! k = Some v) /\
       (forall k, kwargs !! k = None -> k ∉ items.*1 -> self !! k = None)).
Proof.
  unfold AttrDict.__init__. split; [|split].
  - intros args Hne. rewrite dom_empty_L.
    rewrite decide_False by apply not_elem_of_empty.
    rewrite decide_False; [done|].
    intros Hsub. apply Hne. apply elem_of_equiv_empty_L. intros x Hx.
    apply Hsub in Hx. by apply not_elem_of_empty in Hx.
  - intros first second rest Hsub.
    destruct (decide ("self" ∈ dom kwargs)); [done|].
    by rewrite decide_True.
  - intros items Hself Hsub. rewrite decide_False, decide_True by done.
    simpl.
    eexists. split; [reflexivity|]. split; [|split].
    + intros k v Hk. by apply lookup_union_Some_l.
    + intros before after k v Hk Hafter ->.
      rewrite lookup_union_r by done. by apply dict_lookup_last.
    + intros k Hk Hitems. apply lookup_union_None. split; [done|].
      by apply dict_lookup_not_in.
Qed.

End AttrDictPositional.

(** ** pydemic/sampling.py: what the call looks at and passes on *)

Lemma within_bounds_take (pars : list SampleParameter.instance)
    (theta : list R) :
  LikelihoodEstimatorBase.within_bounds pars theta
  = LikelihoodEstimatorBase.within_bounds pars (take (length pars) theta).
Proof.
  revert theta. induction pars as [|par pars IH]; intros [|value theta];
    simpl; try reflexivity.
  by rewrite <- IH.
Qed.

Lemma zip_take_r {A B} (xs : list A) (ys : list B) :
  zip xs ys = zip xs (take (length xs) ys).
Proof.
  revert ys. induction xs as [|x xs IH]; intros [|y ys]; simpl;
    try reflexivity.
  by rewrite <- IH.
Qed.

Lemma within_bounds_true (pars : list SampleParameter.instance)
    (theta : list R) :
  Forall2 (fun par value =>
             fst (SampleParameter.bounds par) <= value
             <= snd (SampleParameter.bounds par))%R pars theta ->
  LikelihoodEstimatorBase.within_bounds pars theta = true.
Proof.
  induction 1 as [|par value pars theta [Hlo Hhi] _ IH]; simpl; [done|].
  by rewrite !bool_decide_eq_true_2.
Qed.

Section CallArguments.

Context {Data : Type}.

(** X2: the call looks at as many components as there are fit
    parameters: components beyond them are neither checked against any
    bound nor passed on. *)
Theorem call_ignores_surplus_components
    (get_log_likelihood : gmap string R -> result np.float64)
    (fit_parameters : list SampleParameter.instance)
    (fixed_values : gmap string R) (data : Data)
    (norm : option (np.ndarray R -> np.ndarray R -> result R))
    (theta : list R) :
  LikelihoodEstimatorBase.__call__
    (LikelihoodEstimatorBase.__init__ get_log_likelihood fit_parameters
       fixed_values data norm) theta
  = LikelihoodEstimatorBase.__call__
      (LikelihoodEstimatorBase.__init__ get_log_likelihood fit_parameters
         fixed_values data norm) (take (length fit_parameters) theta).
Proof.
  rewrite !call_outcome, <- within_bounds_take.
  rewrite (zip_take_r (map SampleParameter.name fit_parameters) theta)
    at 1.
  by rewrite length_map.
Qed.

(** X3: for a vector within bounds, [get_log_likelihood] receives a
    dictionary whose keys are fit-parameter names and in which a name is
    bound to the component at its last position among the names; so with
    distinct names every parameter is bound to its own component. *)
Theorem call_passes_components_by_name
    (get_log_likelihood : gmap string R -> result np.float64)
    (fit_parameters : list SampleParameter.instance)
    (fixed_values : gmap string R) (data : Data)
    (norm : option (np.ndarray R -> np.ndarray R -> result R))
    (theta : list R) :
  length theta = length fit_parameters ->
  ~ Spec.some_outside fit_parameters theta ->
  exists parameters,
    LikelihoodEstimatorBase.__call__
      (LikelihoodEstimatorBase.__init__ get_log_likelihood fit_parameters
         fixed_values data norm) theta
    = get_log_likelihood parameters /\
    (forall name value, parameters !! name = Some value ->
       exists i par, fit_parameters !! i = Some par /\
                     SampleParameter.name par = name /\
                     theta !! i = Some value) /\
    (forall i par value,
       fit_parameters !! i = Some par -> theta !! i = Some value ->
       (forall j later, i < j -> fit_parameters !! j = Some later ->
          SampleParameter.name later <> SampleParameter.name par) ->
       parameters !! SampleParameter.name par = Some value).
Proof.
  intros Hlen Hin. eexists. split; [|split].
  - rewrite call_outcome.
    destruct (LikelihoodEstimatorBase.within_bounds fit_parameters theta)
      eqn:Hwb; [reflexivity|].
    by apply within_bounds_false in Hwb.
  - intros name value Hlook. apply dict_lookup_Some in Hlook.
    apply list_elem_of_lookup in Hlook as [i Hi].
    apply lookup_zip_with_Some in Hi as (n & v & [= <- <-] & Hn & Hv).
    rewrite list_lookup_fmap in Hn.
    destruct (fit_parameters !! i) as [par|] eqn:Hpar; [|done].
    simpl in Hn. inversion Hn. by exists i, par.
  - intros i par value Hpar Hvalue Hlast.
    pose proof (take_drop_middle
                  (zip (map SampleParameter.name fit_parameters) theta) i
                  (SampleParameter.name par, value)) as Hsplit.
    rewrite <- Hsplit.
    + apply dict_lookup_last. intros Hlater.
      apply list_elem_of_fmap in Hlater as ([n v] & Hn & Hnv). simpl in Hn.
      apply list_elem_of_lookup in Hnv as [j Hj].
      rewrite lookup_drop in Hj.
      apply lookup_zip_with_Some in Hj as (n' & v' & [= <- <-] & Hn' & _).
      rewrite list_lookup_fmap in Hn'.
      destruct (fit_parameters !! (S i + j)) as [later|] eqn:Hl; [|done].
      simpl in Hn'. inversion Hn'.
      apply (Hlast (S i + j) later); [lia|done|congruence].
    + apply lookup_zip_with_Some.
      exists (SampleParameter.name par), value.
      split; [done|]. split; [|done].
      by rewrite list_lookup_fmap, Hpar.
Qed.

End CallArguments.

Lemma call_passes_components_by_name_witness :
  exists parameters,
    LikelihoodEstimatorBase.__call__ Examples.beta_estimator [0.5%R]
    = Examples.beta_loglike parameters /\
    (forall name value, parameters !! name = Some value ->
       exists i par, [Examples.beta] !! i = Some par /\
                     SampleParameter.name par = name /\
                     [0.5%R] !! i = Some value) /\
    (forall i par value,
       [Examples.beta] !! i = Some par -> [0.5%R] !! i = Some value ->
       (forall j later, i < j -> [Examples.beta] !! j = Some later ->
          SampleParameter.name later <> SampleParameter.name par) ->
       parameters !! SampleParameter.name par = Some value).
Proof.
  apply (call_passes_components_by_name Examples.beta_loglike
           [Examples.beta] ∅ tt None [0.5%R] eq_refl).
  intros (i & par & value & Hpar & Hvalue & Hout).
  destruct i as [|i]; simpl in *; [|done].
  inversion Hpar; inversion Hvalue; subst.
  unfold Spec.strictly_outside in Hout. simpl in Hout. lra.
Defined.

(** ** pydemic/sampling.py: the grid sampler *)

Lemma linspace_within (lo hi : R) (num : Z) (grid : list R) (x : R) :
  (lo <= hi)%R -> Sampler.linspace lo hi num = Ok grid -> x ∈ grid ->
  (lo <= x <= hi)%R.
Proof.
  intros Hle. unfold Sampler.linspace.
  destruct (decide (num < 0)%Z) as [|Hnum]; [discriminate|]. intros [= <-] Hx.
  apply list_elem_of_fmap in Hx as (i & -> & Hi).
  apply elem_of_seq in Hi. set (n := Z.to_nat num) in *.
  destruct (decide (n = 1)) as [->|Hn].
  - assert (i = 0) as -> by lia. simpl. lra.
  - assert (0 < INR (n - 1))%R as Hd by (apply lt_0_INR; lia).
    assert (0 <= INR i <= INR (n - 1))%R as [Hi0 Hi1].
    { split; [apply pos_INR|apply le_INR; lia]. }
    set (d := INR (n - 1)) in *. set (q := ((hi - lo) / d)%R).
    assert (q * d = hi - lo)%R as Hq by (unfold q; field; lra).
    assert (0 <= q)%R as Hq0.
    { unfold q. apply Rmult_le_pos; [lra|].
      left. by apply Rinv_0_lt_compat. }
    nra.
Qed.

Lemma linspace_length (lo hi : R) (num : Z) (grid : list R) :
  Sampler.linspace lo hi num = Ok grid -> length grid = Z.to_nat num.
Proof.
  unfold Sampler.linspace. destruct (decide (num < 0)%Z); [discriminate|].
  intros [= <-]. by rewrite length_map, length_seq.
Qed.

Lemma linspace_Ok (lo hi : R) (num : Z) :
  (0 <= num)%Z -> exists grid, Sampler.linspace lo hi num = Ok grid.
Proof.
  intros Hn. unfold Sampler.linspace. rewrite decide_False by lia. eauto.
Qed.

Lemma dict_set_fresh {V} (d : list (string * V)) (key : string) (value : V) :
  key ∉ d.*1 -> Sampler.dict_set d key value = (d ++ [(key, value)])%list.
Proof.
  induction d as [|[k v] d IH]; intros Hk; simpl; [done|].
  rewrite decide_False.
  - rewrite IH; [done|]. intros Hin. apply Hk. simpl. by right.
  - intros ->. apply Hk. simpl. by left.
Qed.

Lemma product_member {A} (lists : list (list A)) (xs : list A) :
  xs ∈ Sampler.product lists -> Forall2 (fun x l => x ∈ l) xs lists.
Proof.
  revert xs. induction lists as [|l lists IH]; intros xs; simpl.
  - intros Hxs. apply list_elem_of_singleton in Hxs as ->. constructor.
  - intros Hxs. apply list_elem_of_In, in_flat_map in Hxs as (x & Hx & Hxs).
    apply in_map_iff in Hxs as (tl & <- & Htl).
    constructor; [by apply list_elem_of_In|].
    by apply IH, list_elem_of_In.
Qed.

Lemma flat_map_constant_length {A B} (f : A -> list B) (xs : list A)
    (n : nat) :
  (forall x, length (f x) = n) -> length (flat_map f xs) = length xs * n.
Proof.
  intros Hf. induction xs as [|x xs IH]; simpl; [done|].
  by rewrite length_app, Hf, IH.
Qed.

Lemma product_length {A} (lists : list (list A)) (n : nat) :
  Forall (fun l => length l = n) lists ->
  length (Sampler.product lists) = n ^ length lists.
Proof.
  induction 1 as [|l lists Hl _ IH]; simpl; [done|].
  rewrite (flat_map_constant_length _ _ (n ^ length lists)).
  - by rewrite Hl.
  - intros x. by rewrite length_map.
Qed.

Lemma mapM_ext_members {A B} (f g : A -> result B) (xs : list A) :
  (forall x, x ∈ xs -> f x = g x) -> mapM f xs = mapM g xs.
Proof.
  induction xs as [|x xs IH]; intros Hfg; simpl; [done|].
  rewrite Hfg by (by left). rewrite IH; [done|].
  intros y Hy. apply Hfg. by right.
Qed.

Lemma count_lookup {Data} (self : LikelihoodEstimatorBase.instance Data)
    (n : Z) (par : SampleParameter.instance) :
  par ∈ LikelihoodEstimatorBase.fit_parameters self ->
  Sampler.counts_by_name self (Sampler.Count n)
    !! SampleParameter.name par = Some n.
Proof.
  unfold Sampler.counts_by_name.
  induction (LikelihoodEstimatorBase.fit_parameters self)
    as [|p pars IH] using rev_ind; intros Hin.
  - by apply elem_of_nil in Hin.
  - rewrite map_app. simpl. rewrite dict_snoc.
    destruct (decide (SampleParameter.name p = SampleParameter.name par))
      as [->|Hne].
    + by rewrite lookup_insert_eq.
    + rewrite lookup_insert_ne by done. apply IH.
      apply elem_of_app in Hin as [Hin|Hin]; [done|].
      apply list_elem_of_singleton in Hin. congruence.
Qed.

(** With distinct names, the comprehension lists the grids in the order
    of the fit parameters. *)
Lemma samples_distinct (num : gmap string Z) (n : Z)
    (pars : list SampleParameter.instance) (acc : list (string * list R)) :
  (0 <= n)%Z ->
  (forall par, par ∈ pars -> num !! SampleParameter.name par = Some n) ->
  NoDup (acc.*1 ++ map SampleParameter.name pars) ->
  exists grids,
    Sampler.samples num pars acc = Ok (acc ++ grids)%list /\
    Forall2 (fun par grid =>
               Sampler.linspace (fst (SampleParameter.bounds par))
                 (snd (SampleParameter.bounds par)) n = Ok (snd grid))
      pars grids.
Proof.
  intros Hn. revert acc. induction pars as [|par pars IH]; intros acc Hnum Hnd.
  - exists []. split; [by rewrite app_nil_r|constructor].
  - simpl. unfold getitem. rewrite (Hnum par) by (by left). rewrite bind_Ok.
    destruct (linspace_Ok (fst (SampleParameter.bounds par))
                (snd (SampleParameter.bounds par)) n Hn) as [grid Hgrid].
    rewrite Hgrid, bind_Ok.
    simpl in Hnd. apply NoDup_app in Hnd as (Hacc & Hdisj & Hpars).
    apply NoDup_cons in Hpars as [Hfresh Hpars].
    rewrite dict_set_fresh.
    2:{ intros Hin. apply (Hdisj _ Hin). by left. }
    destruct (IH (acc ++ [(SampleParameter.name par, grid)])%list)
      as (grids & Hgrids & Hall).
    + intros p Hp. apply Hnum. by right.
    + rewrite fmap_app. simpl. rewrite <- app_assoc. simpl.
      apply NoDup_app. split; [done|]. split.
      * intros k Hk Hk'. apply (Hdisj k Hk). done.
      * by apply NoDup_cons.
    + exists ((SampleParameter.name par, grid) :: grids). split.
      * rewrite Hgrids. by rewrite <- app_assoc.
      * by constructor.
Qed.

Section Grid.

Context {Data : Type}.

(** X4: with distinct parameter names, ordered bounds and a count that is
    not negative, [sample_uniform] evaluates [count ^ parameters] value
    sets, each with one value per parameter inside its bounds: the bounds
    gate rejects none of them, and every likelihood is
    [get_log_likelihood] of the value set zipped with the names. *)
Theorem sample_uniform_grid_within_bounds
    (get_log_likelihood : gmap string R -> result np.float64)
    (fit_parameters : list SampleParameter.instance)
    (fixed_values : gmap string R) (data : Data)
    (norm : option (np.ndarray R -> np.ndarray R -> result R)) (n : Z) :
  NoDup (map SampleParameter.name fit_parameters) ->
  Forall (fun par => fst (SampleParameter.bounds par)
                     <= snd (SampleParameter.bounds par))%R fit_parameters ->
  (0 <= n)%Z ->
  exists values,
    length values = Z.to_nat n ^ length fit_parameters /\
    (forall theta, theta ∈ values ->
       length theta = length fit_parameters /\
       ~ Spec.some_outside fit_parameters theta) /\
    Sampler.sample_uniform
      (LikelihoodEstimatorBase.__init__ get_log_likelihood fit_parameters
         fixed_values data norm) (Sampler.Count n)
    = (likelihoods ←
         mapM (fun theta =>
                 get_log_likelihood
                   (dict (zip (map SampleParameter.name fit_parameters)
                            theta))) values;
       Ok (values, likelihoods)).
Proof.
  intros Hnd Hle Hn.
  set (self := LikelihoodEstimatorBase.__init__ get_log_likelihood
                 fit_parameters fixed_values data norm).
  destruct (samples_distinct (Sampler.counts_by_name self (Sampler.Count n))
              n fit_parameters [] Hn) as (grids & Hgrids & Hall).
  { intros par Hpar. by apply count_lookup. }
  { done. }
  change ([] ++ grids)%list with grids in Hgrids.
  assert (forall theta, theta ∈ Sampler.product (map snd grids) ->
            Forall2 (fun par value =>
                       fst (SampleParameter.bounds par) <= value
                       <= snd (SampleParameter.bounds par))%R
              fit_parameters theta) as Hinside.
  { intros theta Hth. apply product_member in Hth.
    clear Hgrids Hnd. revert theta Hth.
    induction Hall as [|par grid pars grids Hgrid _ IH]; intros theta Hth.
    - inversion Hth. constructor.
    - inversion Hle; subst. simpl in Hth. inversion Hth; subst.
      constructor; [|by apply IH].
      by eapply linspace_within. }
  exists (Sampler.product (map snd grids)). split; [|split].
  - rewrite (product_length _ (Z.to_nat n)).
    + rewrite length_map. f_equal. symmetry. by eapply Forall2_length.
    + apply Forall_fmap. clear Hgrids Hinside.
      induction Hall as [|par grid pars grids Hgrid _ IH]; constructor.
      * simpl. by eapply linspace_length.
      * apply IH; [by inversion Hnd|by inversion Hle].
  - intros theta Hth. specialize (Hinside theta Hth).
    pose proof (Forall2_length _ _ _ Hinside) as Hlen. split; [done|].
    intros Hout. apply within_bounds_false in Hout; [|done].
    by rewrite within_bounds_true in Hout.
  - unfold Sampler.sample_uniform.
    change (LikelihoodEstimatorBase.fit_parameters self) with fit_parameters.
    rewrite Hgrids, bind_Ok.
    rewrite (mapM_ext_members (LikelihoodEstimatorBase.__call__ self)
               (fun theta =>
                  get_log_likelihood
                    (dict (zip (map SampleParameter.name fit_parameters)
                             theta)))); [done|].
    intros theta Hth. unfold self. rewrite call_outcome.
    by rewrite within_bounds_true by by apply Hinside.
Qed.

(** X5: a negative count raises ValueError as soon as there is a fit
    parameter; a dictionary of counts that lacks the name of the first
    parameter raises KeyError; without fit parameters the likelihood is
    evaluated once, on the empty dictionary. *)
Theorem sample_uniform_edge_cases
    (get_log_likelihood : gmap string R -> result np.float64)
    (fixed_values : gmap string R) (data : Data)
    (norm : option (np.ndarray R -> np.ndarray R -> result R)) :
  (forall par pars n, (n < 0)%Z ->
     Sampler.sample_uniform
       (LikelihoodEstimatorBase.__init__ get_log_likelihood (par :: pars)
          fixed_values data norm) (Sampler.Count n) = Raise ValueError) /\
  (forall par pars by_name, by_name !! SampleParameter.name par = None ->
     Sampler.sample_uniform
       (LikelihoodEstimatorBase.__init__ get_log_likelihood (par :: pars)
          fixed_values data norm) (Sampler.Counts by_name) = Raise KeyError) /\
  (forall num,
     Sampler.sample_uniform
       (LikelihoodEstimatorBase.__init__ get_log_likelihood []
          fixed_values data norm) num
     = (likelihood ← get_log_likelihood ∅; Ok ([[]], [likelihood]))).
Proof.
  split; [|split].
  - intros par pars n Hn.
    pose proof (count_lookup
                  (LikelihoodEstimatorBase.__init__ get_log_likelihood
                     (par :: pars) fixed_values data norm) n par) as Hcount.
    unfold Sampler.sample_uniform. simpl in *. unfold getitem.
    rewrite Hcount by (by left).
    rewrite bind_Ok. unfold Sampler.linspace. by rewrite decide_True.
  - intros par pars by_name Hnone. unfold Sampler.sample_uniform. simpl.
    unfold getitem. by rewrite Hnone.
  - intros num. unfold Sampler.sample_uniform. simpl.
    rewrite call_outcome. simpl. unfold dict. simpl.
    destruct (get_log_likelihood ∅); reflexivity.
Qed.

End Grid.

Lemma sample_uniform_grid_within_bounds_witness :
  exists values,
    length values = Z.to_nat 3 ^ length [Examples.beta] /\
    (forall theta, theta ∈ values ->
       length theta = length [Examples.beta] /\
       ~ Spec.some_outside [Examples.beta] theta) /\
    Sampler.sample_uniform Examples.beta_estimator (Sampler.Count 3)
    = (likelihoods ←
         mapM (fun theta =>
                 Examples.beta_loglike (dict (zip ["beta"] theta))) values;
       Ok (values, likelihoods)).
Proof.
  apply (sample_uniform_grid_within_bounds Examples.beta_loglike
           [Examples.beta] ∅ tt None 3).
  - simpl. apply NoDup_singleton.
  - constructor; [simpl; lra|constructor].
  - lia.
Defined.

(** ** pydemic/sampling.py: more on the default norm *)

Lemma broadcast_ext_members {A B C} (f g : A -> B -> C) (a : np.ndarray A)
    (b : np.ndarray B) :
  (forall x y, x ∈ np.elements a -> y ∈ np.elements b -> f x y = g x y) ->
  np.broadcast f a b = np.broadcast g a b.
Proof.
  intros Hfg.
  assert (forall xs ys, (forall x y, x ∈ xs -> y ∈ ys -> f x y = g x y) ->
            zip_with f xs ys = zip_with g xs ys) as Hzip.
  { induction xs as [|x xs IH]; intros [|y ys] H; simpl; try reflexivity.
    rewrite H by (by left). rewrite IH; [done|].
    intros x' y' Hx Hy. apply H; by right. }
  destruct a as [x|xs], b as [y|ys]; simpl in *.
  - rewrite Hfg; [done|by left..].
  - do 2 f_equal. apply map_ext_in. intros y Hy.
    apply Hfg; [by left|by apply list_elem_of_In].
  - do 2 f_equal. apply map_ext_in. intros x Hx.
    apply Hfg; [by apply list_elem_of_In|by left].
  - assert (forall x, x ∈ xs -> map (f x) ys = map (g x) ys) as Hl.
    { intros x Hx. apply map_ext_in. intros y Hy.
      apply Hfg; [done|by apply list_elem_of_In]. }
    assert (forall y, y ∈ ys ->
              map (fun x => f x y) xs = map (fun x => g x y) xs) as Hr.
    { intros y Hy. apply map_ext_in. intros x Hx.
      apply Hfg; [by apply list_elem_of_In|done]. }
    destruct (decide (length xs = length ys)).
    + do 2 f_equal. by apply Hzip.
    + destruct xs as [|x [|x' xs]], ys as [|y [|y' ys]]; simpl;
        try reflexivity; do 2 f_equal;
        first [apply (Hl x); by left|apply (Hr y); by left].
Qed.

Lemma list_sum_squares_nonneg (xs ys : list R) :
  (0 <= np.list_sum (zip_with (fun x y => (ln x - ln y) ^ 2) xs ys))%R.
Proof.
  revert ys. induction xs as [|x xs IH]; intros [|y ys];
    try (unfold np.list_sum; simpl; lra).
  change (0 <= (ln x - ln y) ^ 2
               + np.list_sum
                   (zip_with (fun x y => (ln x - ln y) ^ 2) xs ys))%R.
  specialize (IH ys). pose proof (pow2_ge_0 (ln x - ln y)) as Hsq. lra.
Qed.

Lemma list_sum_nonneg (xs : list R) :
  Forall (fun x => 0 <= x)%R xs -> (0 <= np.list_sum xs)%R.
Proof. induction 1; simpl; lra. Qed.

Lemma broadcast_squares_nonneg (a b d : np.ndarray R) :
  np.broadcast (fun x y => (ln x - ln y) ^ 2)%R a b = Ok d ->
  Forall (fun x => 0 <= x)%R (np.elements d).
Proof.
  rewrite <- (broadcast_amap_result (fun x y => ln x - ln y)%R
                (fun z => z ^ 2)%R).
  destruct (np.broadcast _ a b) as [d0|e]; [|discriminate].
  intros [= <-]. destruct d0 as [z|zs]; simpl.
  - constructor; [exact (pow2_ge_0 z)|constructor].
  - apply Forall_fmap, Forall_forall. intros z _. exact (pow2_ge_0 z).
Qed.

Lemma squares_zero_equal (xs ys : list R) :
  Forall (fun x => 0 < x)%R xs -> Forall (fun y => 0 < y)%R ys ->
  length xs = length ys ->
  np.list_sum (zip_with (fun x y => (ln x - ln y) ^ 2)%R xs ys) = 0%R ->
  xs = ys.
Proof.
  intros Hxs. revert ys.
  induction Hxs as [|x xs Hx _ IH]; intros [|y ys] Hys Hlen Hsum;
    try done.
  inversion Hys as [|? ? Hy Hys']; subst.
  change ((ln x - ln y) ^ 2
          + np.list_sum (zip_with (fun x y => (ln x - ln y) ^ 2) xs ys)
          = 0)%R in Hsum.
  pose proof (list_sum_squares_nonneg xs ys) as Hrest.
  pose proof (pow2_ge_0 (ln x - ln y)) as Hsq.
  assert ((ln x - ln y) ^ 2 = 0)%R as Hzero by lra.
  assert (ln x = ln y) as Hln.
  { assert (ln x - ln y = 0)%R; [|lra]. simpl in Hzero.
    apply Rmult_integral in Hzero as [Hz|Hz]; [done|lra]. }
  apply ln_inv in Hln; [|done..]. subst y. f_equal.
  apply IH; [done|by inversion Hlen|lra].
Qed.

Lemma l2_log_norm_vectors (xs ys : list R) :
  length xs = length ys ->
  Sampling.l2_log_norm (np.Vec xs) (np.Vec ys)
  = Ok (- (1 / 2)
        * np.list_sum (zip_with (fun x y => (ln x - ln y) ^ 2) xs ys))%R.
Proof.
  intros Hlen. rewrite l2_log_norm_unfold. simpl.
  rewrite decide_True by done. reflexivity.
Qed.

(** X6: the default norm is never positive; on positive vectors of the
    same length it is zero only if the two vectors are equal. *)
Theorem l2_log_norm_nonpositive_zero_iff_equal (xs ys : list R) :
  Spec.positive (np.Vec xs) -> Spec.positive (np.Vec ys) ->
  length xs = length ys ->
  (forall a b v, Sampling.l2_log_norm a b = Ok v -> v <= 0)%R /\
  (Sampling.l2_log_norm (np.Vec xs) (np.Vec ys) = Ok 0%R <-> xs = ys).
Proof.
  intros Hxs Hys Hlen. split.
  - intros a b v. rewrite l2_log_norm_unfold.
    destruct (np.broadcast _ a b) as [d|e] eqn:Hd; [|discriminate].
    intros [= <-]. apply broadcast_squares_nonneg in Hd.
    apply list_sum_nonneg in Hd. unfold np.sum. lra.
  - rewrite l2_log_norm_vectors by done. split.
    + remember (np.list_sum
                  (zip_with (fun x y => (ln x - ln y) ^ 2)%R xs ys))
        as total eqn:Htotal.
      intros [= Hzero].
      apply squares_zero_equal; [exact Hxs|exact Hys|exact Hlen|].
      rewrite <- Htotal. lra.
    + intros <-. f_equal.
      assert (np.list_sum (zip_with (fun x y => (ln x - ln y) ^ 2)%R xs xs)
              = 0%R) as ->; [|lra].
      clear. induction xs as [|x xs IH]; [done|].
      change ((ln x - ln x) ^ 2
              + np.list_sum (zip_with (fun x y => (ln x - ln y) ^ 2) xs xs)
              = 0)%R.
      rewrite IH. simpl. lra.
Qed.

Lemma l2_log_norm_nonpositive_zero_iff_equal_witness :
  (forall a b v, Sampling.l2_log_norm a b = Ok v -> v <= 0)%R /\
  (Sampling.l2_log_norm (np.Vec [1; 2]%R) (np.Vec [2; 1]%R) = Ok 0%R
   <-> [1; 2]%R = [2; 1]%R).
Proof.
  apply (l2_log_norm_nonpositive_zero_iff_equal [1; 2]%R [2; 1]%R);
    [unfold Spec.positive; simpl; repeat constructor; lra..|reflexivity].
Defined.

(** X7: the default norm compares ratios: multiplying both positive
    arrays by the same positive factor leaves it unchanged. *)
Theorem l2_log_norm_scale_invariant (a b : np.ndarray R) (c : R) :
  Spec.positive a -> Spec.positive b -> (0 < c)%R ->
  Sampling.l2_log_norm (np.amap (fun x => c * x)%R a)
    (np.amap (fun y => c * y)%R b)
  = Sampling.l2_log_norm a b.
Proof.
  intros Ha Hb Hc. rewrite !l2_log_norm_unfold. f_equal.
  rewrite broadcast_amap_args. apply broadcast_ext_members.
  intros x y Hx Hy. unfold Spec.positive in *.
  rewrite Forall_forall in Ha, Hb.
  rewrite !ln_mult by auto. f_equal. lra.
Qed.

Lemma l2_log_norm_scale_invariant_witness :
  Sampling.l2_log_norm (np.amap (fun x => 10 * x)%R (np.Vec [1; 2]%R))
    (np.amap (fun y => 10 * y)%R (np.Vec [2; 1]%R))
  = Sampling.l2_log_norm (np.Vec [1; 2]%R) (np.Vec [2; 1]%R).
Proof.
  apply (l2_log_norm_scale_invariant (np.Vec [1; 2]%R) (np.Vec [2; 1]%R) 10);
    [unfold Spec.positive; simpl; repeat constructor; lra..|lra].
Defined.

(** ** pydemic/models/seirpp.py: more on the seasonal forcing *)

Section SeasonalForcingMore.

Context {Dist : Type}.

(** X8: the seasonal multiplier has period 365 days at every time, stays
    between [1 - |amp|] and [1 + |amp|] (so it is positive when
    [|amp| < 1]), and half a period after [peak_day] it is [1 - amp]. *)
Theorem seasonal_forcing_periodic_bounded
    (self : NonMarkovianSEIRSimulationBase.instance Dist) (t : R) :
  NonMarkovianSEIRSimulationBase.seasonal_forcing self (t + 365)
  = NonMarkovianSEIRSimulationBase.seasonal_forcing self t /\
  (1 - Rabs (NonMarkovianSEIRSimulationBase.seasonal_forcing_amp self)
   <= NonMarkovianSEIRSimulationBase.seasonal_forcing self t
   <= 1 + Rabs (NonMarkovianSEIRSimulationBase.seasonal_forcing_amp self))%R /\
  NonMarkovianSEIRSimulationBase.seasonal_forcing self
    (NonMarkovianSEIRSimulationBase.peak_day self + 365 / 2)
  = (1 - NonMarkovianSEIRSimulationBase.seasonal_forcing_amp self)%R.
Proof.
  unfold NonMarkovianSEIRSimulationBase.seasonal_forcing.
  set (amp := NonMarkovianSEIRSimulationBase.seasonal_forcing_amp self).
  set (peak := NonMarkovianSEIRSimulationBase.peak_day self).
  split; [|split].
  - replace (2 * PI * (t + 365 - peak) / 365)%R
      with (2 * PI * (t - peak) / 365 + 2 * INR 1 * PI)%R
      by (simpl; field).
    by rewrite cos_period.
  - pose proof (COS_bound (2 * PI * (t - peak) / 365)) as [Hlo Hhi].
    unfold Rabs. destruct (Rcase_abs amp); split; nra.
  - replace (2 * PI * (peak + 365 / 2 - peak) / 365)%R with PI by field.
    rewrite cos_PI. lra.
Qed.

End SeasonalForcingMore.

(** ** pydemic/models/seirpp.py: the base driver *)

Section DriverFacts.

Context {Dist : Type}.

Implicit Type self : NonMarkovianSEIRSimulationBase.instance Dist.

(** What one step does to a state it can run on. *)
Lemma step_outcome self (state : SimulationResult.instance)
    (infected susceptible : np.array2) (n_steps : nat) (count : nat) (dt : R)
    (kernel : list R) (total : R) :
  Laws.steppable state infected susceptible n_steps ->
  NonMarkovianSEIRSimulationBase.serial_pdf self = Some kernel ->
  NonMarkovianSEIRSimulationBase.total_population self = Some total ->
  1 <= count < n_steps -> count <= length kernel ->
  exists tc infected' susceptible',
    SimulationResult.t state !! count = Some tc /\
    NonMarkovianSEIRSimulationBase.step self state (Z.of_nat count) dt
    = Ok {| SimulationResult.t := SimulationResult.t state;
            SimulationResult.y :=
              <["susceptible" := susceptible']>
                (<["infected" := infected']> (SimulationResult.y state)) |} /\
    np.nrows infected' = np.nrows infected /\
    np.ncols infected' = np.ncols infected /\
    np.nrows susceptible' = np.nrows susceptible /\
    np.ncols susceptible' = np.ncols susceptible /\
    (forall age, age < np.nrows infected ->
       np.get infected' age count
       = (dt * (NonMarkovianSEIRSimulationBase.r0 self
                * NonMarkovianSEIRSimulationBase.mitigation self tc
                * NonMarkovianSEIRSimulationBase.seasonal_forcing self tc)
          * np.get susceptible age (count - 1)
          * Laws.force_of_infection infected kernel count / total)%R /\
       np.get susceptible' age count
       = (np.get susceptible age (count - 1)
          - np.get infected' age count)%R) /\
    (forall age c, c <> count ->
       np.get infected' age c = np.get infected age c /\
       np.get susceptible' age c = np.get susceptible age c).
Proof.
  intros (Hinf & Hsus & Hrows & Hci & Hcs & Hct) Hpdf Htotal Hc Hcp.
  unfold NonMarkovianSEIRSimulationBase.step.
  destruct (lookup_lt_is_Some_2 (SimulationResult.t state) count) as [tc Htc];
    [lia|].
  assert (np.item (SimulationResult.t state) (Z.of_nat count) = Ok tc) as ->.
  { unfold np.item. rewrite index_in_range by lia. rewrite bind_Ok.
    by rewrite Nat2Z.id, Htc. }
  rewrite bind_Ok.
  unfold getitem. rewrite Hinf, Hpdf, Hsus, Htotal. simpl.
  unfold np.dot.
  rewrite slice_rev_len_prefix, slice_stop_prefix by lia.
  rewrite length_take, Nat.min_l by lia.
  rewrite decide_True by done.
  rewrite bind_Ok.
  rewrite (last_axis_in_range susceptible (Z.of_nat count - 1)) by lia.
  rewrite bind_Ok.
  replace (Z.to_nat (Z.of_nat count - 1)) with (count - 1) by lia.
  rewrite Nat2Z.id.
  set (Rt := (NonMarkovianSEIRSimulationBase.r0 self
              * NonMarkovianSEIRSimulationBase.mitigation self tc
              * NonMarkovianSEIRSimulationBase.seasonal_forcing self tc)%R).
  assert (np.sum
            (np.Vec
               (map (fun row =>
                       np.list_sum (zip_with Rmult row (take count kernel)))
                  (np.last_axis_rev infected (Z.of_nat count - 1))))
          = Laws.force_of_infection infected kernel count) as ->.
  { unfold np.sum, Laws.force_of_infection, np.last_axis_rev. simpl.
    rewrite slice_rev_len_prefix by lia. rewrite Nat2Z.id.
    by rewrite map_map. }
  set (j := Laws.force_of_infection infected kernel count).
  simpl np.amap.
  set (new := map (fun s => (dt * Rt * s * j / total)%R)
                (map (fun r => np.get susceptible r (count - 1))
                   (seq 0 (np.nrows susceptible)))).
  assert (length new = np.nrows susceptible) as Hnewlen.
  { unfold new. by rewrite !length_map, length_seq. }
  assert (forall r, r < np.nrows susceptible ->
            new !! r
            = Some (dt * Rt * np.get susceptible r (count - 1) * j / total)%R)
    as Hnew.
  { intros r Hr. unfold new.
    by rewrite !list_lookup_fmap, lookup_seq_lt. }
  destruct (set_last_axis_column infected (Z.of_nat count) new)
    as (infected' & -> & Hn' & Hc' & Hcol' & Hother'); [lia|congruence|].
  rewrite bind_Ok.
  rewrite lookup_insert_ne by done. rewrite Hsus, bind_Ok.
  rewrite (last_axis_in_range susceptible (Z.of_nat count - 1)) by lia.
  rewrite bind_Ok.
  replace (Z.to_nat (Z.of_nat count - 1)) with (count - 1) by lia.
  unfold np.subtract, np.broadcast.
  rewrite length_map, length_seq, Hnewlen, decide_True by done.
  rewrite bind_Ok.
  set (rest := zip_with Rminus _ new).
  assert (length rest = np.nrows susceptible) as Hrestlen.
  { unfold rest. rewrite length_zip_with, length_map, length_seq. lia. }
  destruct (set_last_axis_column susceptible (Z.of_nat count) rest)
    as (susceptible' & -> & Hsn & Hsc & Hscol & Hsother); [lia|done|].
  rewrite bind_Ok. rewrite Nat2Z.id in *.
  exists tc, infected', susceptible'.
  split; [done|]. split; [reflexivity|].
  split; [done|]. split; [done|]. split; [done|]. split; [done|].
  split.
  - intros age Hage.
    assert (np.get infected' age count
            = (dt * Rt * np.get susceptible age (count - 1) * j / total)%R)
      as Hi.
    { rewrite Hcol' by done. by rewrite Hnew by lia. }
    split; [exact Hi|].
    rewrite Hscol by lia. unfold rest.
    rewrite lookup_zip_with, list_lookup_fmap, lookup_seq_lt by lia.
    simpl. rewrite Hnew by lia. simpl. by rewrite Hi.
  - intros age c Hne. split; [by apply Hother'|by apply Hsother].
Qed.

(** X10: one step on a state it can run on returns; at [count] it puts
    the new infections [dt * Rt * S / total] times the force of infection
    into [infected] and takes them out of [susceptible], so that the two
    add up to the susceptible pool of [count - 1]; it leaves every other
    time point, every other compartment and the time grid as they were. *)
Theorem step_moves_new_infections self (state : SimulationResult.instance)
    (infected susceptible : np.array2) (n_steps : nat) (count : nat) (dt : R)
    (kernel : list R) (total : R) :
  Laws.steppable state infected susceptible n_steps ->
  NonMarkovianSEIRSimulationBase.serial_pdf self = Some kernel ->
  NonMarkovianSEIRSimulationBase.total_population self = Some total ->
  1 <= count < n_steps -> count <= length kernel ->
  exists state' infected' susceptible' tc,
    NonMarkovianSEIRSimulationBase.step self state (Z.of_nat count) dt
    = Ok state' /\
    SimulationResult.t state !! count = Some tc /\
    Laws.steppable state' infected' susceptible' n_steps /\
    SimulationResult.t state' = SimulationResult.t state /\
    (forall key, key <> "infected" -> key <> "susceptible" ->
       SimulationResult.y state' !! key = SimulationResult.y state !! key) /\
    (forall age, age < np.nrows infected ->
       np.get infected' age count
       = (dt * (NonMarkovianSEIRSimulationBase.r0 self
                * NonMarkovianSEIRSimulationBase.mitigation self tc
                * NonMarkovianSEIRSimulationBase.seasonal_forcing self tc)
          * np.get susceptible age (count - 1)
          * Laws.force_of_infection infected kernel count / total)%R /\
       (np.get susceptible' age count + np.get infected' age count
        = np.get susceptible age (count - 1))%R) /\
    (forall age c, c <> count ->
       np.get infected' age c = np.get infected age c /\
       np.get susceptible' age c = np.get susceptible age c).
Proof.
  intros Hwf Hpdf Htotal Hc Hcp.
  destruct (step_outcome self state infected susceptible n_steps count dt
              kernel total Hwf Hpdf Htotal Hc Hcp)
    as (tc & infected' & susceptible' & Htc & Hstep & Hin & Hic & Hsn & Hsc
        & Hcol & Hother).
  destruct Hwf as (Hinf & Hsus & Hrows & Hci & Hcs & Hct).
  eexists _, infected', susceptible', tc.
  split; [exact Hstep|]. split; [done|]. split; [|split; [done|split]].
  - unfold Laws.steppable. simpl.
    rewrite lookup_insert_ne, !lookup_insert_eq by done.
    repeat split; congruence.
  - intros key Hk1 Hk2. simpl. by rewrite !lookup_insert_ne.
  - split; [|done]. intros age Hage.
    destruct (Hcol age Hage) as [Hi Hs]. split; [done|]. rewrite Hs. lra.
Qed.

End DriverFacts.

Section RunFacts.

Context {Dist : Type}.

Implicit Type self : NonMarkovianSEIRSimulationBase.instance Dist.

(** The loop over [count = first, ..., first + m - 1]. *)
Lemma steps_outcome self (dt : R) (kernel : list R) (total : R)
    (n_steps m : nat) :
  NonMarkovianSEIRSimulationBase.serial_pdf self = Some kernel ->
  NonMarkovianSEIRSimulationBase.total_population self = Some total ->
  forall (first : nat) (state : SimulationResult.instance)
         (infected susceptible : np.array2),
    Laws.steppable state infected susceptible n_steps ->
    1 <= first -> first + m <= n_steps -> first + m <= S (length kernel) ->
    exists state' infected' susceptible',
      Driver.steps self state (map Z.of_nat (seq first m)) dt = Ok state' /\
      Laws.steppable state' infected' susceptible' n_steps /\
      SimulationResult.t state' = SimulationResult.t state /\
      np.nrows infected' = np.nrows infected /\
      (forall key, key <> "infected" -> key <> "susceptible" ->
         SimulationResult.y state' !! key = SimulationResult.y state !! key) /\
      (forall age c, c < first \/ first + m <= c ->
         np.get infected' age c = np.get infected age c /\
         np.get susceptible' age c = np.get susceptible age c) /\
      (forall age c, age < np.nrows infected -> first <= c < first + m ->
         (np.get susceptible' age c + np.get infected' age c
          = np.get susceptible' age (c - 1))%R).
Proof.
  intros Hpdf Htotal. induction m as [|m IH];
    intros first state infected susceptible Hwf Hfirst Hlast Hkernel.
  - exists state, infected, susceptible. simpl.
    repeat split; try done; try apply Hwf. intros; lia.
  - destruct (step_outcome self state infected susceptible n_steps first dt
                kernel total Hwf Hpdf Htotal)
      as (tc & infected1 & susceptible1 & Htc & Hstep & Hin & Hic & Hsn & Hsc
          & Hcol & Hother); [lia..|].
    simpl. rewrite Hstep, bind_Ok.
    set (state1 := {| SimulationResult.t := SimulationResult.t state;
                      SimulationResult.y := _ |}).
    assert (Laws.steppable state1 infected1 susceptible1 n_steps) as Hwf1.
    { destruct Hwf as (Hinf & Hsus & Hrows & Hci & Hcs & Hct).
      unfold Laws.steppable, state1. simpl.
      rewrite lookup_insert_ne, !lookup_insert_eq by done.
      repeat split; congruence. }
    destruct (IH (S first) state1 infected1 susceptible1 Hwf1)
      as (state' & infected' & susceptible' & Hsteps & Hwf' & Ht' & Hn'
          & Hkeys & Hframe & Hlaw); [lia..|].
    exists state', infected', susceptible'.
    split; [exact Hsteps|]. split; [done|]. split; [done|].
    split; [congruence|]. split; [|split].
    + intros key Hk1 Hk2. rewrite Hkeys by done. unfold state1. simpl.
      by rewrite !lookup_insert_ne.
    + intros age c Hc.
      destruct (Hframe age c) as [Hi Hs]; [lia|].
      destruct (Hother age c) as [Hi1 Hs1]; [lia|].
      split; congruence.
    + intros age c Hage Hc. destruct (decide (c = first)) as [->|Hne].
      * destruct (Hframe age first) as [Hi Hs]; [lia|].
        destruct (Hframe age (first - 1)) as [_ Hs0]; [lia|].
        destruct (Hother age (first - 1)) as [_ Hs00]; [lia|].
        destruct (Hcol age Hage) as [_ Hnew].
        rewrite Hi, Hs, Hs0, Hs00, Hnew. lra.
      * apply Hlaw; [congruence|lia].
Qed.

Lemma over_time_steppable (times : list R) (y0 : gmap string (list R))
    (infected0 susceptible0 : list R) :
  y0 !! "infected" = Some infected0 ->
  y0 !! "susceptible" = Some susceptible0 ->
  length infected0 = length susceptible0 ->
  Laws.steppable
    {| SimulationResult.t := times;
       SimulationResult.y := Driver.over_time (length times) <$> y0 |}
    (Driver.over_time (length times) infected0)
    (Driver.over_time (length times) susceptible0) (length times).
Proof.
  intros Hi Hs Hlen. unfold Laws.steppable. simpl.
  rewrite !lookup_fmap, Hi, Hs. by repeat split.
Qed.

(** The trajectory [__call__] returns. *)
Lemma call_trajectory self (times pdf : list R) (y0 : gmap string (list R))
    (dt total : R) (infected0 susceptible0 : list R) :
  NonMarkovianSEIRSimulationBase.total_population self = Some total ->
  y0 !! "infected" = Some infected0 ->
  y0 !! "susceptible" = Some susceptible0 ->
  length infected0 = length susceptible0 ->
  1 <= length times -> length times <= S (length pdf) ->
  exists self' sol infected susceptible,
    Driver.__call__ self times pdf y0 dt = Ok (self', sol) /\
    SimulationResult.t sol = times /\
    SimulationResult.y sol !! "infected" = Some infected /\
    SimulationResult.y sol !! "susceptible" = Some susceptible /\
    np.nrows infected = length times /\
    np.nrows susceptible = length times /\
    np.ncols infected = length infected0 /\
    np.ncols susceptible = length infected0 /\
    (forall age i s, infected0 !! age = Some i ->
       susceptible0 !! age = Some s ->
       np.get infected 0 age = i /\ np.get susceptible 0 age = s) /\
    (forall age k, age < length infected0 -> 1 <= k < length times ->
       (np.get susceptible k age + np.get infected k age
        = np.get susceptible (k - 1) age)%R).
Proof.
  intros Htotal Hi Hs Hlen Hn Hpdf.
  unfold Driver.__call__, Driver.y0_all_t.
  rewrite decide_False by lia. rewrite bind_Ok.
  set (self' := {| NonMarkovianSEIRSimulationBase.mitigation := _ |}).
  pose proof (over_time_steppable times y0 infected0 susceptible0 Hi Hs Hlen)
    as Hwf.
  destruct (steps_outcome self' dt (map (fun p => (p / dt)%R) pdf) total
              (length times) (length times - 1) eq_refl Htotal 1 _ _ _ Hwf)
    as (state' & infected' & susceptible' & Hsteps & Hwf' & Ht' & Hn'
        & Hkeys & Hframe & Hlaw); [lia|lia|rewrite length_map; lia|].
  rewrite Hsteps, bind_Ok.
  destruct Hwf' as (Hinf' & Hsus' & Hrows' & Hci' & Hcs' & Hct').
  eexists self', _, (Driver.transpose infected'),
    (Driver.transpose susceptible').
  split; [reflexivity|]. simpl.
  rewrite !lookup_fmap, Hinf', Hsus'. simpl in Hn'.
  split; [done|]. split; [done|]. split; [done|].
  split; [done|]. split; [done|]. split; [done|].
  split; [congruence|]. split.
  - intros age i s Hage Hsage.
    destruct (Hframe age 0) as [-> ->]; [lia|]. simpl.
    by rewrite Hage, Hsage.
  - intros age k Hage Hk. apply Hlaw; [simpl; lia|lia].
Qed.

(** X11: given a total population, an initial condition with the two
    compartments over the same age groups, at least one time point and a
    kernel entry for every step, [__call__] returns the trajectory with
    time along the first axis: its first time point is the initial
    condition, and at every later one the susceptible pool is the
    previous pool minus the new infections written there. *)
Theorem call_returns_renewal_trajectory self (times pdf : list R)
    (y0 : gmap string (list R)) (dt total : R)
    (infected0 susceptible0 : list R) :
  NonMarkovianSEIRSimulationBase.total_population self = Some total ->
  y0 !! "infected" = Some infected0 ->
  y0 !! "susceptible" = Some susceptible0 ->
  length infected0 = length susceptible0 ->
  1 <= length times -> length times <= S (length pdf) ->
  exists self' sol infected susceptible,
    Driver.__call__ self times pdf y0 dt = Ok (self', sol) /\
    SimulationResult.t sol = times /\
    SimulationResult.y sol !! "infected" = Some infected /\
    SimulationResult.y sol !! "susceptible" = Some susceptible /\
    np.nrows infected = length times /\
    np.nrows susceptible = length times /\
    np.ncols infected = length infected0 /\
    np.ncols susceptible = length infected0 /\
    (forall age i s, infected0 !! age = Some i ->
       susceptible0 !! age = Some s ->
       np.get infected 0 age = i /\ np.get susceptible 0 age = s) /\
    (forall age k, age < length infected0 -> 1 <= k < length times ->
       (np.get susceptible k age
        = np.get susceptible (k - 1) age - np.get infected k age)%R).
Proof.
  intros Htotal Hi Hs Hlen Hn Hpdf.
  destruct (call_trajectory self times pdf y0 dt total infected0
              susceptible0 Htotal Hi Hs Hlen Hn Hpdf)
    as (self' & sol & infected & susceptible & Hcall & Ht & Hyi & Hys
        & Hri & Hrs & Hci & Hcs & Hfirst & Hlaw).
  exists self', sol, infected, susceptible.
  repeat (split; [done|]). intros age k Hage Hk.
  specialize (Hlaw age k Hage Hk). lra.
Qed.

End RunFacts.

Section InitialCondition.

Context {Dist : Type}.

Implicit Type self : NonMarkovianSEIRSimulationBase.instance Dist.

Lemma list_sum_scaled_l (c : R) (xs : list R) :
  np.list_sum (map (fun x => c * x)%R xs) = (c * np.list_sum xs)%R.
Proof.
  induction xs as [|x xs IH]; simpl; [lra|]. rewrite IH. lra.
Qed.

Lemma list_sum_difference (c d : R) (xs : list R) :
  np.list_sum
    (zip_with Rminus (map (fun x => c * x)%R xs) (map (fun x => d * x)%R xs))
  = ((c - d) * np.list_sum xs)%R.
Proof.
  induction xs as [|x xs IH]; simpl; [lra|]. rewrite IH. lra.
Qed.

(** X9: [get_y0] records the total population on the instance and
    splits every age group between the two compartments: the infected
    are [initial_cases] times the weight of the group, and infected plus
    susceptible is [total_population] times that weight; over all groups
    they add up to [total_population] times the sum of the weights. *)
Theorem get_y0_splits_population self (total_population initial_cases : R)
    (age_distribution : list R) :
  exists infected susceptible,
    snd (Driver.get_y0 self total_population initial_cases age_distribution)
      !! "infected" = Some infected /\
    snd (Driver.get_y0 self total_population initial_cases age_distribution)
      !! "susceptible" = Some susceptible /\
    NonMarkovianSEIRSimulationBase.total_population
      (fst (fst (Driver.get_y0 self total_population initial_cases
                   age_distribution))) = Some total_population /\
    length infected = length age_distribution /\
    length susceptible = length age_distribution /\
    (forall age weight, age_distribution !! age = Some weight ->
       exists i s,
         infected !! age = Some i /\ susceptible !! age = Some s /\
         i = (initial_cases * weight)%R /\
         (s + i = total_population * weight)%R) /\
    (np.list_sum susceptible + np.list_sum infected
     = total_population * np.list_sum age_distribution)%R.
Proof.
  eexists _, _. unfold Driver.get_y0. simpl.
  split; [by rewrite lookup_insert_eq|].
  split; [by rewrite lookup_insert_ne, lookup_insert_eq|].
  split; [done|].
  split; [by rewrite length_map|].
  split; [by rewrite length_zip_with, !length_map, Nat.min_id|].
  split.
  - intros age weight Hw. eexists _, _.
    rewrite lookup_zip_with, !list_lookup_fmap, Hw. simpl.
    split; [done|]. split; [done|]. split; [done|]. lra.
  - rewrite list_sum_difference, list_sum_scaled_l. lra.
Qed.

Lemma call_cumulative self (times pdf : list R) (y0 : gmap string (list R))
    (dt total : R) (infected0 susceptible0 : list R) :
  NonMarkovianSEIRSimulationBase.total_population self = Some total ->
  y0 !! "infected" = Some infected0 ->
  y0 !! "susceptible" = Some susceptible0 ->
  length infected0 = length susceptible0 ->
  1 <= length times -> length times <= S (length pdf) ->
  exists self' sol infected susceptible,
    Driver.__call__ self times pdf y0 dt = Ok (self', sol) /\
    SimulationResult.y sol !! "infected" = Some infected /\
    SimulationResult.y sol !! "susceptible" = Some susceptible /\
    (forall age i s k, infected0 !! age = Some i ->
       susceptible0 !! age = Some s -> k < length times ->
       (np.get susceptible k age
        + Laws.column_sum (fun j => np.get infected j age) 0 (S k)
        = s + i)%R).
Proof.
  intros Htotal Hi Hs Hlen Hn Hpdf.
  destruct (call_trajectory self times pdf y0 dt total infected0
              susceptible0 Htotal Hi Hs Hlen Hn Hpdf)
    as (self' & sol & infected & susceptible & Hcall & Ht & Hyi & Hys
        & Hri & Hrs & Hci & Hcs & Hfirst & Hlaw).
  exists self', sol, infected, susceptible.
  repeat (split; [done|]). intros age i s k Hage Hsage.
  destruct (Hfirst age i s Hage Hsage) as [Hi0 Hs0].
  assert (age < length infected0) as Hlt by by eapply lookup_lt_Some.
  induction k as [|k IH]; intros Hk.
  - unfold Laws.column_sum. simpl. rewrite Hi0, Hs0. lra.
  - specialize (IH ltac:(lia)).
    specialize (Hlaw age (S k) Hlt ltac:(lia)).
    replace (S k - 1) with k in Hlaw by lia.
    unfold Laws.column_sum in *.
    rewrite (seq_S (S k)), map_app. simpl.
    assert (forall xs x, np.list_sum (xs ++ [x]) = (np.list_sum xs + x)%R)
      as Hsnoc.
    { induction xs as [|y xs IHxs]; intros x; simpl; [lra|].
      rewrite IHxs. lra. }
    rewrite Hsnoc. simpl in IH. lra.
Qed.

(** X12: running from the initial condition of [get_y0] needs nothing
    else set: for at least one time point and a kernel entry per step,
    [__call__] returns, and at every time point the susceptible of an age
    group plus all its infections so far, the initial cases included, are
    [total_population] times the weight of the group. *)
Theorem run_from_y0_conserves_population self
    (total_population initial_cases : R) (age_distribution : list R)
    (times pdf : list R) (dt : R) :
  1 <= length times -> length times <= S (length pdf) ->
  exists self' sol infected susceptible,
    Driver.__call__
      (fst (fst (Driver.get_y0 self total_population initial_cases
                   age_distribution)))
      times pdf
      (snd (Driver.get_y0 self total_population initial_cases
              age_distribution)) dt = Ok (self', sol) /\
    SimulationResult.y sol !! "infected" = Some infected /\
    SimulationResult.y sol !! "susceptible" = Some susceptible /\
    (forall age weight k, age_distribution !! age = Some weight ->
       k < length times ->
       (np.get susceptible k age
        + Laws.column_sum (fun j => np.get infected j age) 0 (S k)
        = total_population * weight)%R).
Proof.
  intros Hn Hpdf.
  set (infected0 := map (fun a => initial_cases * a)%R age_distribution).
  set (susceptible0 :=
         zip_with Rminus
           (map (fun a => total_population * a)%R age_distribution)
           infected0).
  assert (snd (Driver.get_y0 self total_population initial_cases
                 age_distribution) !! "infected" = Some infected0) as Hi.
  { unfold Driver.get_y0. simpl. by rewrite lookup_insert_eq. }
  assert (snd (Driver.get_y0 self total_population initial_cases
                 age_distribution) !! "susceptible" = Some susceptible0)
    as Hs.
  { unfold Driver.get_y0. simpl.
    by rewrite lookup_insert_ne, lookup_insert_eq. }
  assert (length infected0 = length susceptible0) as Hlen.
  { unfold susceptible0, infected0.
    by rewrite length_zip_with, !length_map, Nat.min_id. }
  destruct (call_cumulative
              (fst (fst (Driver.get_y0 self total_population initial_cases
                           age_distribution)))
              times pdf
              (snd (Driver.get_y0 self total_population initial_cases
                      age_distribution))
              dt total_population infected0 susceptible0
              eq_refl Hi Hs Hlen Hn Hpdf)
    as (self' & sol & infected & susceptible & Hcall & Hyi & Hys & Hsum).
  exists self', sol, infected, susceptible.
  repeat (split; [done|]). intros age weight k Hw Hk.
  rewrite (Hsum age (initial_cases * weight)%R
             (total_population * weight - initial_cases * weight)%R k);
    [lra| | |done].
  - unfold infected0. by rewrite list_lookup_fmap, Hw.
  - unfold susceptible0, infected0.
    by rewrite lookup_zip_with, !list_lookup_fmap, Hw.
Qed.

Lemma step_needs_total_population self (state : SimulationResult.instance)
    (infected susceptible : np.array2) (n_steps count : nat) (dt : R)
    (kernel : list R) :
  Laws.steppable state infected susceptible n_steps ->
  NonMarkovianSEIRSimulationBase.serial_pdf self = Some kernel ->
  NonMarkovianSEIRSimulationBase.total_population self = None ->
  1 <= count < n_steps -> count <= length kernel ->
  NonMarkovianSEIRSimulationBase.step self state (Z.of_nat count) dt
  = Raise AttributeError.
Proof.
  intros (Hinf & Hsus & Hrows & Hci & Hcs & Hct) Hpdf Htotal Hc Hcp.
  unfold NonMarkovianSEIRSimulationBase.step.
  destruct (item_in_range (SimulationResult.t state) (Z.of_nat count))
    as [tc ->]; [lia|].
  rewrite bind_Ok.
  unfold getitem. rewrite Hinf, Hpdf, Hsus, Htotal. simpl.
  unfold np.dot.
  rewrite slice_rev_len_prefix, slice_stop_prefix by lia.
  rewrite length_take, Nat.min_l by lia.
  rewrite decide_True by done.
  rewrite bind_Ok.
  rewrite (last_axis_in_range susceptible (Z.of_nat count - 1)) by lia.
  reflexivity.
Qed.

(** X13: what [__call__] needs.  An empty time grid raises IndexError
    as soon as [y0] has a compartment; with two or more time points an
    initial condition without [infected] raises KeyError, and an instance
    on which [get_y0] has not set the total population raises
    AttributeError; a single time point returns the initial condition
    without any step. *)
Theorem call_requirements self (pdf : list R) (y0 : gmap string (list R))
    (dt : R) :
  (y0 <> ∅ -> Driver.__call__ self [] pdf y0 dt = Raise IndexError) /\
  (forall t0 t1 times, y0 !! "infected" = None ->
     Driver.__call__ self (t0 :: t1 :: times) pdf y0 dt = Raise KeyError) /\
  (forall t0 t1 times infected0 susceptible0,
     NonMarkovianSEIRSimulationBase.total_population self = None ->
     y0 !! "infected" = Some infected0 ->
     y0 !! "susceptible" = Some susceptible0 ->
     length infected0 = length susceptible0 -> pdf <> [] ->
     Driver.__call__ self (t0 :: t1 :: times) pdf y0 dt
     = Raise AttributeError) /\
  (forall t0, exists self' sol,
     Driver.__call__ self [t0] pdf y0 dt = Ok (self', sol) /\
     SimulationResult.t sol = [t0] /\
     forall key values, y0 !! key = Some values ->
       exists a, SimulationResult.y sol !! key = Some a /\
         np.nrows a = 1 /\ np.ncols a = length values /\
         forall age value, values !! age = Some value ->
           np.get a 0 age = value).
Proof.
  split; [|split; [|split]].
  - intros Hne. unfold Driver.__call__, Driver.y0_all_t.
    by rewrite decide_True.
  - intros t0 t1 times Hnone. unfold Driver.__call__, Driver.y0_all_t.
    rewrite decide_False by (simpl; lia). rewrite bind_Ok. simpl.
    unfold NonMarkovianSEIRSimulationBase.step. simpl.
    destruct (item_in_range (t0 :: t1 :: times) (Z.of_nat 1)) as [tc ->];
      [simpl; lia|].
    rewrite bind_Ok. unfold getitem.
    assert ((Driver.over_time (S (S (length times))) <$> y0) !! "infected"
            = None) as -> by (by rewrite lookup_fmap, Hnone).
    reflexivity.
  - intros t0 t1 times infected0 susceptible0 Htotal Hi Hs Hlen Hpdf.
    unfold Driver.__call__, Driver.y0_all_t.
    rewrite decide_False by (simpl; lia). rewrite bind_Ok.
    pose proof (over_time_steppable (t0 :: t1 :: times) y0 infected0
                  susceptible0 Hi Hs Hlen) as Hwf.
    cbn [Driver.steps seq map length Nat.sub]. cbn [length] in Hwf.
    rewrite (step_needs_total_population _ _ _ _ _ 1 dt
               (map (fun p => (p / dt)%R) pdf) Hwf); try done.
    + lia.
    + rewrite length_map. destruct pdf; [done|simpl; lia].
  - intros t0. unfold Driver.__call__, Driver.y0_all_t.
    rewrite decide_False by (simpl; lia). rewrite bind_Ok. simpl.
    eexists _, _. split; [reflexivity|]. simpl. split; [done|].
    intros key values Hkey. eexists.
    rewrite !lookup_fmap, Hkey. simpl. split; [reflexivity|]. simpl.
    split; [done|]. split; [done|].
    intros age value Hv. by rewrite Hv.
Qed.

End InitialCondition.

(** Witnesses: one age group, the state of the examples above. *)
Lemma step_moves_new_infections_witness :
  exists state' infected' susceptible' tc,
    NonMarkovianSEIRSimulationBase.step
      (Examples.no_transmission [0.3%R] (99 + 1)%R)
      (Examples.one_group 99 1) (Z.of_nat 1) 0.05%R = Ok state' /\
    SimulationResult.t (Examples.one_group 99 1) !! 1 = Some tc /\
    Laws.steppable state' infected' susceptible' 2 /\
    SimulationResult.t state' = SimulationResult.t (Examples.one_group 99 1) /\
    (forall key, key <> "infected" -> key <> "susceptible" ->
       SimulationResult.y state' !! key
       = SimulationResult.y (Examples.one_group 99 1) !! key) /\
    (forall age, age < np.nrows (Examples.column 1) ->
       np.get infected' age 1
       = (0.05 * (NonMarkovianSEIRSimulationBase.r0
                    (Examples.no_transmission [0.3%R] (99 + 1)%R)
                  * NonMarkovianSEIRSimulationBase.mitigation
                      (Examples.no_transmission [0.3%R] (99 + 1)%R) tc
                  * NonMarkovianSEIRSimulationBase.seasonal_forcing
                      (Examples.no_transmission [0.3%R] (99 + 1)%R) tc)
          * np.get (Examples.column 99) age (1 - 1)
          * Laws.force_of_infection (Examples.column 1) [0.3%R] 1
          / (99 + 1))%R /\
       (np.get susceptible' age 1 + np.get infected' age 1
        = np.get (Examples.column 99) age (1 - 1))%R) /\
    (forall age c, c <> 1 ->
       np.get infected' age c = np.get (Examples.column 1) age c /\
       np.get susceptible' age c = np.get (Examples.column 99) age c).
Proof.
  apply (step_moves_new_infections
           (Examples.no_transmission [0.3%R] (99 + 1)%R)
           (Examples.one_group 99 1) (Examples.column 1)
           (Examples.column 99) 2 1 0.05%R [0.3%R] (99 + 1)%R).
  - unfold Laws.steppable. repeat split; reflexivity.
  - reflexivity.
  - reflexivity.
  - lia.
  - simpl. lia.
Defined.

Lemma call_returns_renewal_trajectory_witness :
  exists self' sol infected susceptible,
    Driver.__call__ (Examples.no_transmission [] (99 + 1)%R)
      [0; 0.05]%R [0.3%R]
      {[ "infected" := [1%R]; "susceptible" := [99%R] ]} 0.05%R
    = Ok (self', sol) /\
    SimulationResult.t sol = [0; 0.05]%R /\
    SimulationResult.y sol !! "infected" = Some infected /\
    SimulationResult.y sol !! "susceptible" = Some susceptible /\
    np.nrows infected = length [0; 0.05]%R /\
    np.nrows susceptible = length [0; 0.05]%R /\
    np.ncols infected = length [1%R] /\
    np.ncols susceptible = length [1%R] /\
    (forall age i s, [1%R] !! age = Some i -> [99%R] !! age = Some s ->
       np.get infected 0 age = i /\ np.get susceptible 0 age = s) /\
    (forall age k, age < length [1%R] -> 1 <= k < length [0; 0.05]%R ->
       (np.get susceptible k age
        = np.get susceptible (k - 1) age - np.get infected k age)%R).
Proof.
  apply (call_returns_renewal_trajectory
           (Examples.no_transmission [] (99 + 1)%R) [0; 0.05]%R [0.3%R]
           {[ "infected" := [1%R]; "susceptible" := [99%R] ]} 0.05%R
           (99 + 1)%R [1%R] [99%R]);
    try reflexivity; simpl; lia.
Defined.

Lemma run_from_y0_conserves_population_witness :
  exists self' sol infected susceptible,
    Driver.__call__
      (fst (fst (Driver.get_y0 (Examples.no_transmission [] 0) 100 1
                   [1%R])))
      [0; 0.05]%R [0.3%R]
      (snd (Driver.get_y0 (Examples.no_transmission [] 0) 100 1 [1%R]))
      0.05%R = Ok (self', sol) /\
    SimulationResult.y sol !! "infected" = Some infected /\
    SimulationResult.y sol !! "susceptible" = Some susceptible /\
    (forall age weight k, [1%R] !! age = Some weight ->
       k < length [0; 0.05]%R ->
       (np.get susceptible k age
        + Laws.column_sum (fun j => np.get infected j age) 0 (S k)
        = 100 * weight)%R).
Proof.
  apply (run_from_y0_conserves_population (Examples.no_transmission [] 0)
           100 1 [1%R] [0; 0.05]%R [0.3%R] 0.05%R); simpl; lia.
Defined.

Lemma bind_assoc {A B C} (m : result A) (k : A -> result B)
    (h : B -> result C) :
  (m ≫= k) ≫= h = m ≫= (fun a => k a ≫= h).
Proof. by destruct m. Qed.

Lemma multiply_one_l (p : np.ndarray R) : np.multiply (np.Scalar 1%R) p = Ok p.
Proof.
  destruct p as [x|xs]; unfold np.multiply; simpl; do 2 f_equal; [lra|].
  induction xs as [|x xs IH]; simpl; [done|]. rewrite IH. f_equal. lra.
Qed.

Lemma multiply_scalar_r (p : np.ndarray R) (c : R) :
  np.multiply p (np.Scalar c) = Ok (np.imul p c).
Proof. by destruct p. Qed.

Lemma fatalities_per_infection_scaled (p icu dead age : np.ndarray R)
    (c : R) :
  Laws.fatalities_per_infection (np.imul p c) icu dead age
  = (fun s => s * c)%R <$> Laws.fatalities_per_infection p icu dead age.
Proof.
  unfold Laws.fatalities_per_infection.
  rewrite multiply_imul, fmap_bind, bind_fmap. apply bind_ext. intros p1.
  rewrite multiply_imul, fmap_bind, bind_fmap. apply bind_ext. intros p2.
  rewrite multiply_imul, fmap_bind, bind_fmap. apply bind_ext. intros w.
  unfold fmap, result_fmap. by rewrite sum_imul.
Qed.

Section Legacy.

Context {Dist : Type}.

Lemma synthetic_ifr_fatalities (a : OldSEIRPlusPlusSimulation.args Dist) :
  OldSEIRPlusPlusSimulation.synthetic_ifr a
  = Laws.fatalities_per_infection (OldSEIRPlusPlusSimulation.p_observed a)
      (OldSEIRPlusPlusSimulation.p_icu a)
      (OldSEIRPlusPlusSimulation.p_dead a)
      (OldSEIRPlusPlusSimulation.age_distribution a).
Proof.
  unfold OldSEIRPlusPlusSimulation.synthetic_ifr,
    OldSEIRPlusPlusSimulation.p_dead_all, Laws.fatalities_per_infection.
  rewrite multiply_one_l, bind_Ok, !bind_assoc. reflexivity.
Qed.

(** X16: the legacy constructor.  When its probabilities and the age
    distribution combine (their shapes agree), a missing [ifr] raises
    TypeError; with an [ifr] and a product that is not zero, the
    constructor returns, only the probability of the observed readout is
    rescaled, and the deaths per infection of the chain observed, icu,
    dead, weighted by the age distribution, are the [ifr] asked for. *)
Theorem legacy_init_reaches_ifr (a : OldSEIRPlusPlusSimulation.args Dist)
    (synthetic_ifr : R) :
  OldSEIRPlusPlusSimulation.synthetic_ifr a = Ok synthetic_ifr ->
  (OldSEIRPlusPlusSimulation.ifr a = None ->
   OldSEIRPlusPlusSimulation.__init__ a = Raise TypeError) /\
  (forall ifr, OldSEIRPlusPlusSimulation.ifr a = Some ifr ->
     synthetic_ifr <> 0%R ->
     exists self observed,
       OldSEIRPlusPlusSimulation.__init__ a = Ok self /\
       OldSEIRPlusPlusSimulation.readouts self
       = [("observed",
           ("infected", observed,
            OldSEIRPlusPlusSimulation.incubation_dist a));
          ("icu",
           ("observed", OldSEIRPlusPlusSimulation.p_icu a,
            OldSEIRPlusPlusSimulation.icu_dist a));
          ("dead",
           ("icu", OldSEIRPlusPlusSimulation.p_dead a,
            OldSEIRPlusPlusSimulation.dead_dist a));
          ("recovered",
           ("icu",
            SEIRPlusPlusSimulation.one_minus
              (OldSEIRPlusPlusSimulation.p_dead a),
            OldSEIRPlusPlusSimulation.recovered_dist a))] /\
       Laws.fatalities_per_infection observed
         (OldSEIRPlusPlusSimulation.p_icu a)
         (OldSEIRPlusPlusSimulation.p_dead a)
         (OldSEIRPlusPlusSimulation.age_distribution a) = Ok ifr).
Proof.
  intros Hs. split.
  - intros Hnone. unfold OldSEIRPlusPlusSimulation.__init__.
    by rewrite Hs, Hnone.
  - intros ifr Hifr Hnz. unfold OldSEIRPlusPlusSimulation.__init__.
    rewrite Hs, Hifr, !bind_Ok. simpl np.imul.
    rewrite multiply_scalar_r, bind_Ok.
    eexists _, _. split; [reflexivity|]. split; [reflexivity|].
    rewrite fatalities_per_infection_scaled, <- synthetic_ifr_fatalities, Hs.
    unfold fmap, result_fmap. f_equal. field. done.
Qed.

End Legacy.

Lemma legacy_init_reaches_ifr_witness :
  (OldSEIRPlusPlusSimulation.ifr Scenarios.legacy = None ->
   OldSEIRPlusPlusSimulation.__init__ Scenarios.legacy = Raise TypeError) /\
  (forall ifr, OldSEIRPlusPlusSimulation.ifr Scenarios.legacy = Some ifr ->
     (1 * 1 * 1 * 1 * 0.5 + (1 * 1 * 1 * 1 * 0.5 + 0))%R <> 0%R ->
     exists self observed,
       OldSEIRPlusPlusSimulation.__init__ Scenarios.legacy = Ok self /\
       OldSEIRPlusPlusSimulation.readouts self
       = [("observed", ("infected", observed, tt));
          ("icu", ("observed", np.Scalar 1%R, tt));
          ("dead", ("icu", np.Scalar 1%R, tt));
          ("recovered",
           ("icu", SEIRPlusPlusSimulation.one_minus (np.Scalar 1%R), tt))] /\
       Laws.fatalities_per_infection observed (np.Scalar 1%R)
         (np.Scalar 1%R) (np.Vec [0.5; 0.5]%R) = Ok ifr).
Proof.
  apply (legacy_init_reaches_ifr Scenarios.legacy
           (1 * 1 * 1 * 1 * 0.5 + (1 * 1 * 1 * 1 * 0.5 + 0))%R).
  reflexivity.
Defined.
